(** * fetch_stock_data.py: the fetch-and-save loop

    A shallow embedding of [src/data/fetch_stock_data.py] and the
    properties its specification states about it.

    The script talks to three things outside itself: the HTTP API, the
    file system and the console.  They are modelled as follows.
    - What the outside world answers (does the output directory exist, what
      does the API return for a symbol, does a file write succeed) is an
      oracle, the record [Env].
    - What the script does to the outside world is recorded in its state:
      the files it leaves behind, and a chronological trace of events
      (console lines, HTTP requests, sleeps, file writes).
    - Control flow ([continue], [return], exceptions and [try]/[except])
      is a small monad over that state. *)

From Stdlib Require Import String Ascii ZArith List Bool Lia.
From stdpp Require Import base option gmap strings list.

Local Open Scope string_scope.
Local Open Scope list_scope.
Local Open Scope stdpp_scope.

(** ** Python values, as [response.json()] returns them *)

(** A [dict] is kept as its list of items in insertion order, which is also
    the order [json.dump] writes them in. *)
#[warnings="-register-all"]
Inductive pyval : Type :=
| PyNone
| PyBool (b : bool)
| PyInt (n : Z)
| PyFloat (literal : string)
| PyStr (s : string)
| PyList (items : list pyval)
| PyDict (items : list (string * pyval)).

(** Exceptions the script can meet, up to the distinctions its [except]
    clauses make. *)
Inductive exn : Type :=
| RequestError        (* requests.exceptions.RequestException: HTTPError, ConnectionError, Timeout, ... *)
| RequestsJsonError   (* requests.exceptions.JSONDecodeError (requests >= 2.27): both of the two around it *)
| JsonError           (* json.JSONDecodeError *)
| OsError             (* OSError; IOError is the same class in Python 3 *)
| TypeError
| KeyError
| OtherError.         (* any other subclass of Exception *)

(** The classes named in the script's [except] clauses. *)
Inductive exn_class : Type :=
| CRequestException | CJSONDecodeError | COSError | CException.

(** [isinstance(e, cls)].  [COSError] stands for both [OSError] and
    [IOError]; [RequestException] derives from it. *)
Definition isinstance (e : exn) (c : exn_class) : bool :=
  match c, e with
  | CException, _ => true
  | CRequestException, (RequestError | RequestsJsonError) => true
  | CJSONDecodeError, (JsonError | RequestsJsonError) => true
  | COSError, (OsError | RequestError | RequestsJsonError) => true
  | _, _ => false
  end.

(** ** Strings *)

(** [needle in hay] on two [str]: substring test. *)
Fixpoint is_substring (needle hay : string) : bool :=
  String.prefix needle hay ||
  match hay with
  | EmptyString => false
  | String _ hay' => is_substring needle hay'
  end.

(** ** Results of a statement: value, [continue], [return] or exception *)

Inductive res (A : Type) : Type :=
| Val (a : A)
| Continue
| Return
| Raise (e : exn).
Arguments Val {A} a.
Arguments Continue {A}.
Arguments Return {A}.
Arguments Raise {A} e.

(** [x == needle] for a [str] needle. *)
Definition py_eq_str (needle : string) (x : pyval) : bool :=
  match x with
  | PyStr s => String.eqb needle s
  | _ => false
  end.

(** First item with the given key; a [dict] has at most one. *)
Fixpoint assoc (key : string) (items : list (string * pyval)) : option pyval :=
  match items with
  | [] => None
  | (k, v) :: rest => if String.eqb key k then Some v else assoc key rest
  end.

Definition has_key (key : string) (items : list (string * pyval)) : bool :=
  existsb (fun kv => String.eqb key (fst kv)) items.

(** [needle in container], for a [str] needle: key membership on a dict,
    element membership on a list, substring on a str, [TypeError]
    otherwise ("argument of type ... is not iterable"). *)
Definition py_in (needle : string) (container : pyval) : res bool :=
  match container with
  | PyDict items => Val (has_key needle items)
  | PyList items => Val (existsb (py_eq_str needle) items)
  | PyStr s => Val (is_substring needle s)
  | _ => Raise TypeError
  end.

(** [container[key]], for a [str] key: lookup on a dict ([KeyError] when
    absent), [TypeError] on everything else. *)
Definition py_getitem (container : pyval) (key : string) : res pyval :=
  match container with
  | PyDict items =>
      match assoc key items with
      | Some v => Val v
      | None => Raise KeyError
      end
  | _ => Raise TypeError
  end.

(** ** The outside world *)

(** What [response.json()] does. *)
Inductive json_result : Type :=
| JsonRaises (e : exn)
| JsonValue (data : pyval).

(** What [requests.get] does: it raises a [RequestException] (connection
    error, timeout, too many redirects, ...) or returns a response, of which
    the script uses the status code and the decoded body. *)
Record Response : Type := {
  status_code : Z;
  body : json_result
}.

Inductive get_result : Type :=
| GetFails
| GetResponse (response : Response).

(** What [open(path, 'w')] followed by [json.dump] does.  [open] fails with
    an [OSError]; once it has succeeded the file exists and is empty, and a
    failure of [json.dump] (an [OSError] while writing, a
    [UnicodeEncodeError] on a lone surrogate) leaves it incomplete. *)
Inductive write_result : Type :=
| Written
| OpenFails
| DumpFails (e : exn).

(** The console encodes the script's own messages, the paths, the texts of
    exceptions and the text of a response body, which requests decodes
    with replacement characters.  A decoded value is another matter: a JSON
    escape such as \ud800 decodes to a lone surrogate, which no console
    encodes, and [print] of a line that formats such a value raises
    [UnicodeEncodeError].  Strings are kept here without that detail, so
    whether a value can be printed is part of the oracle. *)
Record Env : Type := {
  dir_exists : bool;                 (* os.path.exists(OUTPUT_DIR) *)
  makedirs_ok : bool;                (* os.makedirs(OUTPUT_DIR) does not raise OSError *)
  http : string -> get_result;       (* by the request's symbol parameter *)
  disk : string -> write_result;     (* by the path written *)
  printable : pyval -> bool          (* the console can encode the text of this value *)
}.

(** What a file holds: the value [json.dump] serialised into it, or the
    remains of a failed dump. *)
Inductive content : Type :=
| Dumped (v : pyval)
| Incomplete.

(** Console lines, one constructor per [print] of the script. *)
Inductive line : Type :=
| LStart
| LDirCreated
| LDirError
| LHeader (index total : nat) (symbol description : string)
| LApiError (message : pyval)
| LRateLimit
| LNote (note : pyval)
| LInformation (information : pyval)
| LMissingKey
| LSaved (path : string)
| LWriteError (path : string)
| LRequestFailed
| LParseFailed
| LResponseText
| LUnknownError
| LWaiting (seconds : Z)
| LSummary (processed total : nat).

Inductive event : Type :=
| Print (l : line)
| MakeDirs (path : string)
| HttpGet (url : string) (params : list (string * string))
| FileWrite (path : string) (v : pyval)
| Sleep (seconds : Z).

Record state : Type := {
  symbols_processed : nat;
  files : gmap string content;
  trace : list event
}.

(** ** The monad *)

Definition M (A : Type) : Type := state -> res A * state.

Definition ret {A} (a : A) : M A := fun st => (Val a, st).

Definition bind {A B} (m : M A) (k : A -> M B) : M B :=
  fun st =>
    match m st with
    | (Val a, st') => k a st'
    | (Continue, st') => (Continue, st')
    | (Return, st') => (Return, st')
    | (Raise e, st') => (Raise e, st')
    end.

Declare Scope script_scope.
Delimit Scope script_scope with script.
Notation "x <- m ;; k" := (bind m (fun x => k))
  (at level 100, m at next level, k at level 200, right associativity) : script_scope.
Notation "m ;; k" := (bind m (fun _ => k))
  (at level 100, k at level 200, right associativity) : script_scope.
Local Open Scope script_scope.

(** A pure operation that may raise. *)
Definition lift {A} (r : res A) : M A := fun st => (r, st).

Definition continue {A} : M A := lift Continue.
Definition return_ {A} : M A := lift Return.
Definition raise {A} (e : exn) : M A := lift (Raise e).

(** [if b: body]. *)
Definition when (b : bool) (body : M unit) : M unit :=
  if b then body else ret tt.

(** [try: body  except c1: h1  except c2: h2 ...]: the first clause whose
    class the exception is an instance of handles it. *)
Fixpoint handler_for (e : exn) (clauses : list (exn_class * M unit)) : option (M unit) :=
  match clauses with
  | [] => None
  | (c, h) :: rest => if isinstance e c then Some h else handler_for e rest
  end.

Definition try_except (body : M unit) (clauses : list (exn_class * M unit)) : M unit :=
  fun st =>
    match body st with
    | (Raise e, st') =>
        match handler_for e clauses with
        | Some h => h st'
        | None => (Raise e, st')
        end
    | r => r
    end.

(** [for x in xs: body]. *)
Fixpoint for_each {A} (xs : list A) (body : A -> M unit) : M unit :=
  match xs with
  | [] => ret tt
  | x :: rest =>
      fun st =>
        match body x st with
        | (Val _, st') | (Continue, st') => for_each rest body st'
        | r => r
        end
  end.

(** A function call: [return] ends the callee, not the caller. *)
Definition call (body : M unit) : M unit :=
  fun st =>
    match body st with
    | (Return, st') => (Val tt, st')
    | r => r
    end.

(** ** Primitive effects *)

Definition emit (e : event) : M unit :=
  fun st => (Val tt, {| symbols_processed := symbols_processed st;
                        files := files st;
                        trace := trace st ++ [e] |}).

Definition print (l : line) : M unit := emit (Print l).

Definition get_processed : M nat := fun st => (Val (symbols_processed st), st).

Definition set_processed (n : nat) : M unit :=
  fun st => (Val tt, {| symbols_processed := n;
                        files := files st;
                        trace := trace st |}).

Definition set_file (path : string) (c : content) : M unit :=
  fun st => (Val tt, {| symbols_processed := symbols_processed st;
                        files := <[path := c]> (files st);
                        trace := trace st |}).

(** ** Configuration (the module-level constants) *)

Definition ALPHA_VANTAGE_API_KEY : string := "SFQWOYE7LHWY8WMC".

(** The registry, in the order of the dict literal. *)
Definition SYMBOLS : list (string * string) :=
  [ ("SPY", "S&P 500 (SPY)");
    ("QQQ", "Nasdaq (QQQ)");
    ("EXS1.DE", "DAX (EXS1.DE)");
    ("ASHR", "China A50 (ASHR)");
    ("EWJ", "Japan (EWJ)") ].

Definition OUTPUT_DIR : string := "data/stock".
Definition BASE_URL : string := "https://www.alphavantage.co/query".
Definition FUNCTION : string := "TIME_SERIES_DAILY".
Definition OUTPUT_SIZE : string := "compact".

(** ** Library calls *)

Definition startswith_sep (p : string) : bool :=
  match p with
  | String c _ => Ascii.eqb c "/"
  | EmptyString => false
  end.

Fixpoint endswith_sep (p : string) : bool :=
  match p with
  | EmptyString => false
  | String c EmptyString => Ascii.eqb c "/"
  | String _ rest => endswith_sep rest
  end.

(** [os.path.join(a, b)] of posixpath: an absolute [b] replaces [a], and a
    separator is added unless [a] is empty or ends with one. *)
Definition os_path_join (a b : string) : string :=
  if startswith_sep b then b
  else if String.eqb a "" || endswith_sep a then a +:+ b
  else a +:+ "/" +:+ b.

(** [response.raise_for_status()]: requests raises [HTTPError] for the
    client errors 400-499 and the server errors 500-599, and for no other
    status code. *)
Definition raise_for_status (response : Response) : M unit :=
  if (400 <=? status_code response)%Z && (status_code response <? 600)%Z
  then raise RequestError
  else ret tt.

(** [response.json()]. *)
Definition response_json (response : Response) : M pyval :=
  match body response with
  | JsonRaises e => raise e
  | JsonValue data => ret data
  end.

(** The value of a query parameter. *)
Fixpoint param (key : string) (params : list (string * string)) : string :=
  match params with
  | [] => ""
  | (k, v) :: rest => if String.eqb key k then v else param key rest
  end.

(** [file_name] and [output_path] of lines 96-97. *)
Definition file_name (symbol : string) : string := symbol +:+ ".json".

Definition output_path (symbol : string) : string :=
  os_path_join OUTPUT_DIR (file_name symbol).

(** [params] of lines 55-61. *)
Definition request_params (symbol : string) : list (string * string) :=
  [ ("function", FUNCTION);
    ("symbol", symbol);
    ("outputsize", OUTPUT_SIZE);
    ("apikey", ALPHA_VANTAGE_API_KEY);
    ("datatype", "json") ].

Definition call_interval_seconds : Z := 15.

Section Script.

Variable E : Env.

Definition os_makedirs (path : string) : M unit :=
  if makedirs_ok E then emit (MakeDirs path) else raise OsError.

Definition requests_get (url : string) (params : list (string * string)) : M Response :=
  emit (HttpGet url params) ;;
  match http E (param "symbol" params) with
  | GetFails => raise RequestError
  | GetResponse response => ret response
  end.

(** [with open(path, 'w', encoding='utf-8') as f: json.dump(v, f, ...)]. *)
Definition write_json (path : string) (v : pyval) : M unit :=
  match disk E path with
  | OpenFails => raise OsError
  | DumpFails e => set_file path Incomplete ;; raise e
  | Written => set_file path (Dumped v) ;; emit (FileWrite path v)
  end.

Definition time_sleep (seconds : Z) : M unit := emit (Sleep seconds).

(** [print] of a line that formats a value of the response (lines 72, 76
    and 82): [UnicodeEncodeError], a [ValueError], when the console cannot
    encode the value. *)
Definition print_value (l : pyval -> line) (v : pyval) : M unit :=
  if printable E v then print (l v) else raise OtherError.

(** Lines 70-92: the checks on the decoded response, down to
    [time_series_data = data[time_series_key]]. *)
Definition extract_time_series (data : pyval) : M pyval :=
  has_error <- lift (py_in "Error Message" data) ;;
  when has_error
    ( message <- lift (py_getitem data "Error Message") ;;
      print_value LApiError message ;;
      continue ) ;;
  has_note <- lift (py_in "Note" data) ;;
  rate_limited <-
    (if has_note
     then note <- lift (py_getitem data "Note") ;;
          lift (py_in "API call frequency" note)
     else ret false) ;;
  when rate_limited
    ( print LRateLimit ;;
      note <- lift (py_getitem data "Note") ;;
      print_value LNote note ;;
      continue ) ;;
  has_information <- lift (py_in "Information" data) ;;
  when has_information
    ( information <- lift (py_getitem data "Information") ;;
      print_value LInformation information ;;
      continue ) ;;
  let time_series_key := "Time Series (Daily)" in
  present <- lift (py_in time_series_key data) ;;
  when (negb present)
    ( print LMissingKey ;;
      continue ) ;;
  lift (py_getitem data time_series_key).

(** Lines 94-107: the inner [try], which writes the file and counts it. *)
Definition save_time_series (symbol : string) (time_series_data : pyval) : M unit :=
  try_except
    ( write_json (output_path symbol) time_series_data ;;
      print (LSaved (output_path symbol)) ;;
      n <- get_processed ;;
      set_processed (n + 1) )
    [ (COSError, print (LWriteError (output_path symbol))) ].

(** Lines 117-120: the wait at the end of the loop body. *)
Definition pause (total_symbols : nat) : M unit :=
  n <- get_processed ;;
  when (Nat.ltb n total_symbols)
    ( print (LWaiting call_interval_seconds) ;;
      time_sleep call_interval_seconds ).

(** Lines 109-115: the [except] clauses of the outer [try]. *)
Definition report_failure : list (exn_class * M unit) :=
  [ (CRequestException, print LRequestFailed);
    (CJSONDecodeError, print LParseFailed ;; print LResponseText);
    (CException, print LUnknownError) ].

(** The body of the [for] loop, lines 52-120. *)
Definition loop_body (total_symbols : nat) (item : string * string) : M unit :=
  let '(symbol, description) := item in
  n <- get_processed ;;
  print (LHeader (n + 1) total_symbols symbol description) ;;
  try_except
    ( response <- requests_get BASE_URL (request_params symbol) ;;
      raise_for_status response ;;
      data <- response_json response ;;
      time_series_data <- extract_time_series data ;;
      save_time_series symbol time_series_data )
    report_failure ;;
  pause total_symbols.

(** The function, over an arbitrary registry. *)
Definition fetch_and_save (registry : list (string * string)) : M unit :=
  call
    ( print LStart ;;
      when (negb (dir_exists E))
        (try_except
           ( os_makedirs OUTPUT_DIR ;;
             print LDirCreated )
           [ (COSError, print LDirError ;; return_) ]) ;;
      set_processed 0 ;;
      let total_symbols := length registry in
      for_each registry (loop_body total_symbols) ;;
      n <- get_processed ;;
      print (LSummary n total_symbols) ).

Definition fetch_and_save_stock_data : M unit := fetch_and_save SYMBOLS.

End Script.

(** A run starts with the files of earlier runs and nothing done yet. *)
Definition initial (fs : gmap string content) : state :=
  {| symbols_processed := 0; files := fs; trace := [] |}.

Definition run (E : Env) (registry : list (string * string))
    (fs : gmap string content) : state :=
  snd (fetch_and_save E registry (initial fs)).

(** ** Reading a trace *)

Definition is_sleep (e : event) : bool :=
  match e with Sleep _ => true | _ => false end.

Definition is_write (e : event) : bool :=
  match e with FileWrite _ _ => true | _ => false end.

(** The line that reports each way an iteration can fail (of the two lines
    of a rate limit, the second, which ends the report). *)
Definition is_failure (e : event) : bool :=
  match e with
  | Print (LApiError _ | LNote _ | LInformation _ | LMissingKey
          | LWriteError _ | LRequestFailed | LParseFailed | LUnknownError) => true
  | _ => false
  end.

(** Number of calls of [time.sleep]. *)
Definition sleeps (tr : list event) : nat := length (List.filter is_sleep tr).

(** Number of files written to the end. *)
Definition writes (tr : list event) : nat := length (List.filter is_write tr).

(** Number of failures reported. *)
Definition failures (tr : list event) : nat := length (List.filter is_failure tr).

(** The symbols requested, in order. *)
Fixpoint requested (tr : list event) : list string :=
  match tr with
  | [] => []
  | HttpGet _ params :: rest => param "symbol" params :: requested rest
  | _ :: rest => requested rest
  end.

(** The state after some more events. *)
Definition log (st : state) (evs : list event) : state :=
  {| symbols_processed := symbols_processed st;
     files := files st;
     trace := trace st ++ evs |}.

(** ** Vocabulary of the properties *)

(** What every iteration starts with: its progress line and its request. *)
Definition header (st : state) (total : nat) (symbol description : string) : list event :=
  [ Print (LHeader (symbols_processed st + 1) total symbol description);
    HttpGet BASE_URL (request_params symbol) ].

(** The state in which the loop starts: the counter at zero, after the
    first line and, when the directory was missing, its creation. *)
Definition prepared (E : Env) (st : state) : state :=
  {| symbols_processed := 0;
     files := files st;
     trace := trace st ++
              Print LStart ::
              (if dir_exists E then [] else [MakeDirs OUTPUT_DIR; Print LDirCreated]) |}.

(** The output directory is there when the loop would start. *)
Definition directory_ready (E : Env) : Prop :=
  dir_exists E = true \/ makedirs_ok E = true.

(** A status on which [raise_for_status] stays silent. *)
Definition accepted (r : Response) : Prop :=
  (status_code r < 400)%Z \/ (600 <= status_code r)%Z.

(** A client or server error status. *)
Definition error_status (r : Response) : Prop :=
  (400 <= status_code r)%Z /\ (status_code r < 600)%Z.

(** The test of line 74 on a value under "Note". *)
Definition mentions_frequency (note : pyval) : Prop :=
  py_in "API call frequency" note = Val true.

(** No "Note", or one on which the test of line 74 is false. *)
Definition no_rate_limit (items : list (string * pyval)) : Prop :=
  assoc "Note" items = None \/
  exists note, assoc "Note" items = Some note /\
               py_in "API call frequency" note = Val false.

(** The decoded response is a dict that passes every check and holds
    [ts] under "Time Series (Daily)". *)
Definition carries_series (items : list (string * pyval)) (ts : pyval) : Prop :=
  has_key "Error Message" items = false /\
  no_rate_limit items /\
  has_key "Information" items = false /\
  assoc "Time Series (Daily)" items = Some ts.

(** The symbol succeeds: the API answers with such a response and the
    file can be written. *)
Definition succeeds (E : Env) (symbol : string) (ts : pyval) : Prop :=
  exists r items,
    http E symbol = GetResponse r /\
    accepted r /\
    body r = JsonValue (PyDict items) /\
    carries_series items ts /\
    disk E (output_path symbol) = Written.

(** The state after a successful save. *)
Definition saved (st : state) (total : nat) (symbol description : string)
    (ts : pyval) : state :=
  {| symbols_processed := symbols_processed st + 1;
     files := <[output_path symbol := Dumped ts]> (files st);
     trace := trace st ++ header st total symbol description ++
              [ FileWrite (output_path symbol) ts;
                Print (LSaved (output_path symbol)) ] |}.

(** ** Sample answers of the outside world *)

Definition sample_series : pyval :=
  PyDict [ ("2025-04-01",
            PyDict [ ("1. open", PyStr "560.10"); ("4. close", PyStr "562.01");
                     ("5. volume", PyStr "54609600") ]) ].

Definition sample_envelope : pyval :=
  PyDict [ ("Meta Data", PyDict [ ("2. Symbol", PyStr "SPY") ]);
           ("Time Series (Daily)", sample_series) ].

Definition answer (status : Z) (data : pyval) : Response :=
  {| status_code := status; body := JsonValue data |}.

(** The directory exists, every write succeeds, and the API answers every
    symbol with [r]. *)
Definition always (r : Response) : Env :=
  {| dir_exists := true;
     makedirs_ok := true;
     http := fun _ => GetResponse r;
     disk := fun _ => Written;
     printable := fun _ => true |}.

(** Every symbol succeeds. *)
Definition all_served : Env := always (answer 200 sample_envelope).

(** Every symbol is refused by the API. *)
Definition all_refused : Env :=
  always (answer 200 (PyDict [ ("Error Message", PyStr "Invalid API call.") ])).

(** The server fails on the first symbol of [SYMBOLS] and serves the rest. *)
Definition first_fails : Env :=
  {| dir_exists := true;
     makedirs_ok := true;
     http := fun symbol =>
       if String.eqb symbol "SPY"
       then GetResponse (answer 500 (PyDict []))
       else GetResponse (answer 200 sample_envelope);
     disk := fun _ => Written;
     printable := fun _ => true |}.

(** A status outside 200-299 that is not an error status, with a body. *)
Definition multiple_choices : Env := always (answer 300 sample_envelope).

(** A server error. *)
Definition unavailable : Env := always (answer 503 sample_envelope).

(** A note that is not about the call frequency. *)
Definition thanked : Env :=
  always (answer 200 (PyDict [ ("Note", PyStr "Thank you for using Alpha Vantage!") ])).

(** The directory is missing and cannot be created. *)
Definition read_only : Env :=
  {| dir_exists := false;
     makedirs_ok := false;
     http := fun _ => GetResponse (answer 200 sample_envelope);
     disk := fun _ => OpenFails;
     printable := fun _ => true |}.

(** ** More ways of reading a trace *)

Definition is_saved (e : event) : bool :=
  match e with Print (LSaved _) => true | _ => false end.

Definition is_makedirs (e : event) : bool :=
  match e with MakeDirs _ => true | _ => false end.

(** Number of success lines printed. *)
Definition saves (tr : list event) : nat := length (List.filter is_saved tr).

(** Number of calls of [os.makedirs] that went through. *)
Definition makedirs_calls (tr : list event) : nat := length (List.filter is_makedirs tr).

(** What an iteration may do after its request: print, write the file of
    its own symbol, sleep for the call interval. *)
Definition after_request (symbol : string) (e : event) : Prop :=
  match e with
  | Print _ => True
  | FileWrite path _ => path = output_path symbol
  | Sleep seconds => seconds = call_interval_seconds
  | MakeDirs _ | HttpGet _ _ => False
  end.

(** What a run may do: the same, the creation of the output directory, and
    the request of a symbol of the registry with the parameters of lines
    55-61. *)
Definition in_a_run (registry : list (string * string)) (e : event) : Prop :=
  match e with
  | Print _ => True
  | MakeDirs path => path = OUTPUT_DIR
  | HttpGet url params =>
      url = BASE_URL /\
      exists symbol, In symbol (map fst registry) /\
        params = [ ("function", "TIME_SERIES_DAILY");
                   ("symbol", symbol);
                   ("outputsize", "compact");
                   ("apikey", ALPHA_VANTAGE_API_KEY);
                   ("datatype", "json") ]
  | FileWrite path _ => exists symbol, In symbol (map fst registry) /\ path = output_path symbol
  | Sleep seconds => seconds = 15%Z
  end.

(** What the disk ends up doing to the file of a symbol whose series is
    [ts]: nothing when [open] fails, an incomplete file when the dump
    fails, the series otherwise. *)
Definition disk_effect (E : Env) (symbol : string) (ts : pyval)
    (fs : gmap string content) : gmap string content :=
  match disk E (output_path symbol) with
  | Written => <[output_path symbol := Dumped ts]> fs
  | OpenFails => fs
  | DumpFails _ => <[output_path symbol := Incomplete]> fs
  end.

(** A map of files into files that, at each path, either keeps what is
    there or puts something that does not depend on what was there. *)
Definition overwrites (g : gmap string content -> gmap string content) : Prop :=
  forall path,
    (forall fs, g fs !! path = fs !! path) \/
    (exists c, forall fs, g fs !! path = Some c).

(** More sample answers. *)

(** No connection. *)
Definition offline : Env :=
  {| dir_exists := true;
     makedirs_ok := true;
     http := fun _ => GetFails;
     disk := fun _ => Written;
     printable := fun _ => true |}.

(** A body that is not JSON. *)
Definition garbled : Env :=
  {| dir_exists := true;
     makedirs_ok := true;
     http := fun _ => GetResponse {| status_code := 200; body := JsonRaises JsonError |};
     disk := fun _ => Written;
     printable := fun _ => true |}.

(** The API serves every symbol and the disk refuses every file. *)
Definition disk_full : Env :=
  {| dir_exists := true;
     makedirs_ok := true;
     http := fun _ => GetResponse (answer 200 sample_envelope);
     disk := fun _ => OpenFails;
     printable := fun _ => true |}.

(** The directory is missing and can be created. *)
Definition fresh_checkout : Env :=
  {| dir_exists := false;
     makedirs_ok := true;
     http := fun _ => GetResponse (answer 200 sample_envelope);
     disk := fun _ => Written;
     printable := fun _ => true |}.

(** A JSON array instead of an object. *)
Definition array_answer : Env :=
  always (answer 200 (PyList [ PyStr "Time Series (Daily)"; sample_series ])).

(** A "Note" that is a number, beside a series. *)
Definition numeric_note : Env :=
  always (answer 200 (PyDict [ ("Note", PyInt 5); ("Time Series (Daily)", sample_series) ])).

(** The iteration passed the symbol over: it ended normally or in
    [continue], and changed neither the files nor the counter nor the
    number of files written. *)
Definition skipped (st : state) (result : res unit * state) : Prop :=
  (fst result = Val tt \/ fst result = Continue) /\
  files (snd result) = files st /\
  symbols_processed (snd result) = symbols_processed st /\
  writes (trace (snd result)) = writes (trace st).

(** As [always], on a console that cannot encode the values of the
    response. *)
Definition mute (r : Response) : Env :=
  {| dir_exists := true;
     makedirs_ok := true;
     http := fun _ => GetResponse r;
     disk := fun _ => Written;
     printable := fun _ => false |}.

(** The API refuses every symbol with a message that cannot be printed. *)
Definition refused_unprintably : Env :=
  mute (answer 200 (PyDict [ ("Error Message", PyStr "Invalid API call.") ])).

(** * Proofs *)

Arguments has_key : simpl never.
Arguments assoc : simpl never.
Arguments is_substring : simpl never.
Arguments os_path_join : simpl never.
Arguments output_path : simpl never.
Arguments request_params : simpl never.

Lemma param_symbol symbol : param "symbol" (request_params symbol) = symbol.
Proof. reflexivity. Qed.

Ltac norm_trace := rewrite <- ?app_assoc; simpl.

Ltac unfold_monad :=
  unfold bind, lift, when, ret, continue, return_, raise, print, time_sleep,
    emit, get_processed, set_processed, set_file, log.

(** ** The blocks of the loop body, case by case *)

Lemma extract_cases E data st :
  match extract_time_series E data st with
  | (Val ts, st') => st' = st /\ py_getitem data "Time Series (Daily)" = Val ts
  | (Continue, st') =>
      exists l before, st' = log st (before ++ [Print l]) /\ is_failure (Print l) = true /\
        (before = [] \/ before = [Print LRateLimit])
  | (Raise e, st') =>
      (st' = st \/ st' = log st [Print LRateLimit]) /\
      (e = TypeError \/ e = KeyError \/ e = OtherError)
  | (Return, _) => False
  end.
Proof.
  unfold extract_time_series, print_value; unfold_monad.
  destruct data; simpl; auto.
  all: repeat (match goal with
       | |- context [if ?b then _ else _] => destruct b eqn:?
       | |- context [match assoc ?k ?l with _ => _ end] => destruct (assoc k l) eqn:?
       | |- context [match py_in ?k ?l with _ => _ end] =>
           destruct (py_in k l) as [[]| | |] eqn:?
       end; simpl).
  all: norm_trace; try discriminate; auto 6.
  all: try (eexists _, []; split; [reflexivity|]; split; [reflexivity|]; left; reflexivity).
  all: try (eexists _, [Print LRateLimit]; split; [reflexivity|];
            split; [reflexivity|]; right; reflexivity).
  all: unfold py_in in *; repeat case_match; simplify_eq; auto 6.
Qed.

Lemma save_cases E symbol ts st :
  save_time_series E symbol ts st =
  match disk E (output_path symbol) with
  | Written =>
      (Val tt, {| symbols_processed := symbols_processed st + 1;
                  files := <[output_path symbol := Dumped ts]> (files st);
                  trace := trace st ++ [FileWrite (output_path symbol) ts;
                                        Print (LSaved (output_path symbol))] |})
  | OpenFails => (Val tt, log st [Print (LWriteError (output_path symbol))])
  | DumpFails e =>
      if isinstance e COSError
      then (Val tt, {| symbols_processed := symbols_processed st;
                       files := <[output_path symbol := Incomplete]> (files st);
                       trace := trace st ++ [Print (LWriteError (output_path symbol))] |})
      else (Raise e, {| symbols_processed := symbols_processed st;
                        files := <[output_path symbol := Incomplete]> (files st);
                        trace := trace st |})
  end.
Proof.
  unfold save_time_series, try_except, write_json; unfold_monad.
  destruct (disk E (output_path symbol)) as [| |e]; simpl; norm_trace; auto.
  destruct e; reflexivity.
Qed.

Lemma pause_cases total st :
  pause total st =
  (Val tt, if Nat.ltb (symbols_processed st) total
           then log st [Print (LWaiting call_interval_seconds); Sleep call_interval_seconds]
           else st).
Proof.
  unfold pause; unfold_monad.
  destruct (Nat.ltb (symbols_processed st) total); simpl; norm_trace; auto.
Qed.

Ltac finish_iteration :=
  rewrite ?pause_cases; simpl;
  match goal with
  | |- context [Nat.ltb ?a ?b] => destruct (Nat.ltb a b)
  | _ => idtac
  end;
  eexists _, _, _; (split; [reflexivity|]); simpl;
  (split; [auto|]);
  (split; [norm_trace; reflexivity|]);
  unfold writes, failures; simpl;
  repeat match goal with
         | H : is_failure _ = true |- _ => simpl in H; rewrite H; clear H
         | H : _ \/ _ |- _ => destruct H as [H|H]
         | H : ex _ |- _ => destruct H as [? H]
         end; subst; simpl;
  (split; [reflexivity|]);
  (split; [reflexivity|]);
  (split; [simpl; lia|]);
  (split; [intros p Hp; simpl; rewrite ?lookup_insert_ne by congruence; reflexivity|]);
  (split; [intros p v Hin; simpl in Hin;
           repeat (destruct Hin as [Hin|Hin]; try discriminate);
           try contradiction; simplify_eq;
           (split; [reflexivity | simpl; apply lookup_insert_eq])
          |intros; simpl; try discriminate; auto]).

Lemma loop_body_spec E total symbol description st :
  exists sig st' evs,
    loop_body E total (symbol, description) st = (sig, st') /\
    (sig = Val tt \/ sig = Continue) /\
    trace st' = trace st ++ header st total symbol description ++ evs /\
    requested evs = [] /\
    writes evs + failures evs = 1 /\
    symbols_processed st' = symbols_processed st + writes evs /\
    (forall p, p <> output_path symbol -> files st' !! p = files st !! p) /\
    (forall p v, In (FileWrite p v) evs ->
       p = output_path symbol /\ files st' !! p = Some (Dumped v)) /\
    (writes evs = 0 ->
       files st' = files st \/
       files st' = <[output_path symbol := Incomplete]> (files st)).
Proof.
  unfold loop_body, report_failure, try_except, requests_get, raise_for_status,
    response_json, header.
  unfold_monad. simpl.
  destruct (http E symbol) as [|r]; simpl.
  { finish_iteration. }
  destruct ((400 <=? status_code r)%Z && (status_code r <? 600)%Z); simpl.
  { finish_iteration. }
  destruct (body r) as [e|data]; simpl.
  { destruct e; simpl; finish_iteration. }
  match goal with
  | |- context [extract_time_series E data ?s] =>
      pose proof (extract_cases E data s) as H;
      destruct (extract_time_series E data s) as [[ts| | |e] st2]
  end.
  - destruct H as [-> _]. rewrite save_cases.
    destruct (disk E (output_path symbol)) as [| |e]; [| |destruct e]; simpl.
    all: finish_iteration.
  - destruct H as (l & before & -> & Hl & [-> | ->]);
      destruct l; try discriminate Hl; clear Hl; finish_iteration.
  - contradiction.
  - destruct H as [[-> | ->] [-> | [-> | ->]]]; simpl; finish_iteration.
Qed.

(** ** Counting over traces *)

Lemma sleeps_app tr1 tr2 : sleeps (tr1 ++ tr2) = sleeps tr1 + sleeps tr2.
Proof. unfold sleeps. rewrite List.filter_app. apply List.length_app. Qed.

Lemma writes_app tr1 tr2 : writes (tr1 ++ tr2) = writes tr1 + writes tr2.
Proof. unfold writes. rewrite List.filter_app. apply List.length_app. Qed.

Lemma failures_app tr1 tr2 : failures (tr1 ++ tr2) = failures tr1 + failures tr2.
Proof. unfold failures. rewrite List.filter_app. apply List.length_app. Qed.

Lemma requested_app tr1 tr2 : requested (tr1 ++ tr2) = requested tr1 ++ requested tr2.
Proof.
  induction tr1 as [|e tr1 IH]; simpl; [reflexivity|].
  destruct e; simpl; rewrite IH; reflexivity.
Qed.

(** ** The loop *)

Lemma for_each_cons {A} (x : A) rest body st :
  for_each (x :: rest) body st =
  match body x st with
  | (Val _, st') | (Continue, st') => for_each rest body st'
  | r => r
  end.
Proof. reflexivity. Qed.

(** What the loop over a registry does to a state, whatever the outside
    world answers: it ends normally, requests every symbol once and in
    order, and each symbol is either written or reported as failed. *)
Lemma for_each_spec E total registry : forall st,
  exists st',
    for_each registry (loop_body E total) st = (Val tt, st') /\
    requested (trace st') = requested (trace st) ++ map fst registry /\
    writes (trace st') + failures (trace st') =
      writes (trace st) + failures (trace st) + length registry /\
    symbols_processed st' + writes (trace st) =
      symbols_processed st + writes (trace st') /\
    (forall p, (forall symbol, In symbol (map fst registry) -> p <> output_path symbol) ->
       files st' !! p = files st !! p) /\
    (forall p v, In (FileWrite p v) (trace st') ->
       In (FileWrite p v) (trace st) \/
       exists symbol, In symbol (map fst registry) /\ p = output_path symbol) /\
    writes (trace st') <= writes (trace st) + length registry.
Proof.
  induction registry as [|[symbol description] rest IH]; intros st.
  - exists st. simpl. rewrite app_nil_r.
    repeat split; auto; lia.
  - destruct (loop_body_spec E total symbol description st)
      as (sig & st1 & evs & Hrun & Hsig & Htr & Hreq & Hone & Hcount & Hframe & Hwr & _).
    destruct (IH st1) as (st' & Hrest & Hreq' & Hone' & Hcount' & Hframe' & Hwr' & Hle').
    exists st'.
    assert (Hw1 : writes (trace st1) = writes (trace st) + writes evs)
      by (rewrite Htr, !writes_app; reflexivity).
    assert (Hf1 : failures (trace st1) = failures (trace st) + failures evs)
      by (rewrite Htr, !failures_app; reflexivity).
    split.
    { rewrite for_each_cons, Hrun. destruct Hsig as [-> | ->]; exact Hrest. }
    split.
    { rewrite Hreq', Htr, !requested_app, Hreq. simpl.
      rewrite <- app_assoc. reflexivity. }
    split; [simpl; lia|].
    split; [lia|].
    split.
    { intros p Hp. rewrite Hframe', Hframe; auto.
      - apply Hp. simpl. auto.
      - intros s Hs. apply Hp. simpl. auto. }
    split; [|simpl; lia].
    intros p v Hin. destruct (Hwr' p v Hin) as [Hin1 | (s & Hs & ->)].
    + rewrite Htr in Hin1. apply in_app_or in Hin1 as [Hin1 | Hin1]; [auto|].
      apply in_app_or in Hin1 as [Hin1 | Hin1].
      * simpl in Hin1. repeat (destruct Hin1 as [Hin1|Hin1]; try discriminate).
        contradiction.
      * right. exists symbol. split; [simpl; auto|]. apply (Hwr p v Hin1).
    + right. exists s. split; [simpl; auto|reflexivity].
Qed.

(** ** Dicts *)

Lemma has_key_assoc key items :
  has_key key items = match assoc key items with Some _ => true | None => false end.
Proof.
  unfold has_key, assoc.
  induction items as [|[k v] rest IH]; simpl; [reflexivity|].
  destruct (String.eqb key k); simpl; auto.
Qed.

Lemma has_key_true key items :
  has_key key items = true -> exists v, assoc key items = Some v.
Proof. rewrite has_key_assoc. destruct (assoc key items); eauto; discriminate. Qed.

Lemma has_key_false key items :
  has_key key items = false -> assoc key items = None.
Proof. rewrite has_key_assoc. destruct (assoc key items); auto; discriminate. Qed.

(** The checks of lines 71-92 on a dict, by what is under each key and
    whether the console can print it. *)
Lemma extract_dict E items st :
  extract_time_series E (PyDict items) st =
  let rest :=
    match assoc "Information" items with
    | Some information =>
        if printable E information
        then (Continue, log st [Print (LInformation information)])
        else (Raise OtherError, st)
    | None =>
        match assoc "Time Series (Daily)" items with
        | Some ts => (Val ts, st)
        | None => (Continue, log st [Print LMissingKey])
        end
    end in
  match assoc "Error Message" items with
  | Some message =>
      if printable E message
      then (Continue, log st [Print (LApiError message)])
      else (Raise OtherError, st)
  | None =>
      match assoc "Note" items with
      | Some note =>
          match py_in "API call frequency" note with
          | Val true =>
              if printable E note
              then (Continue, log st [Print LRateLimit; Print (LNote note)])
              else (Raise OtherError, log st [Print LRateLimit])
          | Val false => rest
          | _ => (Raise TypeError, st)
          end
      | None => rest
      end
  end.
Proof.
  unfold extract_time_series, print_value; unfold_monad; simpl.
  rewrite !has_key_assoc.
  destruct (assoc "Error Message" items) as [message|]; simpl;
    [destruct (printable E message); reflexivity|].
  destruct (assoc "Information" items) as [information|],
    (assoc "Time Series (Daily)" items),
    (assoc "Note" items) as [note|]; simpl;
    try destruct (printable E information); try reflexivity.
  all: destruct note; simpl; try reflexivity.
  all: repeat match goal with
       | |- context [if ?b then _ else _] => destruct b
       end; simpl; norm_trace; reflexivity.
Qed.

(** ** One iteration, by what the API answers *)

Lemma bind_congr {A B} (m1 m2 : M A) (k : A -> M B) st1 st2 :
  m1 st1 = m2 st2 -> bind m1 k st1 = bind m2 k st2.
Proof. unfold bind. intros ->. reflexivity. Qed.

Lemma accepted_passes r :
  accepted r -> (400 <=? status_code r)%Z && (status_code r <? 600)%Z = false.
Proof. unfold accepted. intros [H | H]; lia. Qed.

Lemma error_status_raises r :
  error_status r -> (400 <=? status_code r)%Z && (status_code r <? 600)%Z = true.
Proof. unfold error_status. lia. Qed.

(** With an accepted status and a decoded body, the iteration is the
    checks, the save and the wait. *)
Lemma loop_body_response E total symbol description st r data :
  http E symbol = GetResponse r ->
  accepted r ->
  body r = JsonValue data ->
  loop_body E total (symbol, description) st =
  (try_except
     (time_series_data <- extract_time_series E data ;;
      save_time_series E symbol time_series_data)
     report_failure ;;
   pause total) (log st (header st total symbol description)).
Proof.
  intros Hget Hok Hbody.
  unfold loop_body, try_except, requests_get, raise_for_status, response_json, header.
  unfold_monad. simpl. rewrite Hget. simpl.
  rewrite (accepted_passes r Hok), Hbody. simpl. norm_trace. reflexivity.
Qed.

(** With an accepted status the iteration is the decoding, the checks, the
    save and the wait: the status itself plays no further part. *)
Lemma loop_body_accepted E total symbol description st r :
  http E symbol = GetResponse r ->
  accepted r ->
  loop_body E total (symbol, description) st =
  (try_except
     (data <- response_json r ;;
      time_series_data <- extract_time_series E data ;;
      save_time_series E symbol time_series_data)
     report_failure ;;
   pause total) (log st (header st total symbol description)).
Proof.
  intros Hget Hok.
  unfold loop_body, try_except, requests_get, raise_for_status, header.
  unfold_monad. simpl. rewrite Hget. simpl.
  rewrite (accepted_passes r Hok). simpl. norm_trace. reflexivity.
Qed.

(** Two outside worlds that answer a symbol with the same body and accepted
    statuses, and agree on the disk and the console, give the same
    iteration. *)
Lemma loop_body_status_irrelevant E1 E2 total symbol description st r1 r2 :
  http E1 symbol = GetResponse r1 ->
  http E2 symbol = GetResponse r2 ->
  accepted r1 ->
  accepted r2 ->
  body r1 = body r2 ->
  disk E1 = disk E2 ->
  printable E1 = printable E2 ->
  loop_body E1 total (symbol, description) st = loop_body E2 total (symbol, description) st.
Proof.
  intros Hget1 Hget2 Hok1 Hok2 Hbody Hdisk Hprint.
  rewrite (loop_body_accepted E1 total symbol description st r1 Hget1 Hok1).
  rewrite (loop_body_accepted E2 total symbol description st r2 Hget2 Hok2).
  unfold response_json, extract_time_series, print_value, save_time_series, write_json.
  rewrite Hbody, Hdisk, Hprint. reflexivity.
Qed.

Lemma loop_body_skips E total symbol description st r data st1 :
  http E symbol = GetResponse r ->
  accepted r ->
  body r = JsonValue data ->
  extract_time_series E data (log st (header st total symbol description)) = (Continue, st1) ->
  loop_body E total (symbol, description) st = (Continue, st1).
Proof.
  intros Hget Hok Hbody Hex.
  rewrite (loop_body_response E total symbol description st r data Hget Hok Hbody).
  unfold try_except, bind. rewrite Hex. reflexivity.
Qed.

Lemma loop_body_saves E total symbol description st r data ts st1 :
  http E symbol = GetResponse r ->
  accepted r ->
  body r = JsonValue data ->
  extract_time_series E data (log st (header st total symbol description)) = (Val ts, st1) ->
  loop_body E total (symbol, description) st =
  (try_except (save_time_series E symbol ts) report_failure ;; pause total) st1.
Proof.
  intros Hget Hok Hbody Hex.
  rewrite (loop_body_response E total symbol description st r data Hget Hok Hbody).
  apply bind_congr. unfold try_except, bind. rewrite Hex. reflexivity.
Qed.

(** An exception of the checks is reported by the last [except] clause. *)
Lemma loop_body_unknown E total symbol description st r data e st1 :
  http E symbol = GetResponse r ->
  accepted r ->
  body r = JsonValue data ->
  extract_time_series E data (log st (header st total symbol description)) = (Raise e, st1) ->
  e = TypeError \/ e = KeyError \/ e = OtherError ->
  loop_body E total (symbol, description) st =
  pause total (log st1 [Print LUnknownError]).
Proof.
  intros Hget Hok Hbody Hex He.
  rewrite (loop_body_response E total symbol description st r data Hget Hok Hbody).
  unfold try_except, bind. rewrite Hex.
  destruct He as [-> | [-> | ->]]; reflexivity.
Qed.

Lemma extract_series E items ts st :
  carries_series items ts -> extract_time_series E (PyDict items) st = (Val ts, st).
Proof.
  intros (Herr & Hnote & Hinfo & Hts).
  rewrite extract_dict. simpl.
  rewrite (has_key_false _ _ Herr), (has_key_false _ _ Hinfo), Hts.
  destruct Hnote as [-> | (note & -> & ->)]; reflexivity.
Qed.

Lemma loop_body_succeeds E total symbol description st ts :
  succeeds E symbol ts ->
  loop_body E total (symbol, description) st =
  pause total (saved st total symbol description ts).
Proof.
  intros (r & items & Hget & Hok & Hbody & Hser & Hdisk).
  rewrite (loop_body_saves E total symbol description st r (PyDict items) ts _
             Hget Hok Hbody (extract_series E _ _ _ Hser)).
  unfold try_except, bind. rewrite save_cases, Hdisk. simpl.
  unfold saved, header. norm_trace. reflexivity.
Qed.

Lemma loop_body_request_failed E total symbol description st r :
  http E symbol = GetResponse r ->
  error_status r ->
  loop_body E total (symbol, description) st =
  pause total (log st (header st total symbol description ++ [Print LRequestFailed])).
Proof.
  intros Hget Herr.
  unfold loop_body, report_failure, try_except, requests_get, raise_for_status,
    response_json, header.
  unfold_monad. simpl. rewrite Hget. simpl.
  rewrite (error_status_raises r Herr). simpl. norm_trace. reflexivity.
Qed.

(** ** The whole function *)

Lemma fetch_and_save_aborts E registry st :
  dir_exists E = false ->
  makedirs_ok E = false ->
  fetch_and_save E registry st = (Val tt, log st [Print LStart; Print LDirError]).
Proof.
  intros Hdir Hmk.
  unfold fetch_and_save, call, try_except, os_makedirs; unfold_monad.
  rewrite Hdir, Hmk. simpl. norm_trace. reflexivity.
Qed.

Lemma fetch_and_save_runs E registry st :
  directory_ready E ->
  exists st1,
    for_each registry (loop_body E (length registry)) (prepared E st) = (Val tt, st1) /\
    fetch_and_save E registry st =
      (Val tt, log st1 [Print (LSummary (symbols_processed st1) (length registry))]).
Proof.
  intros Hready.
  destruct (for_each_spec E (length registry) registry (prepared E st))
    as (st1 & Hloop & _).
  exists st1. split; [exact Hloop|].
  unfold fetch_and_save, call, try_except, os_makedirs; unfold_monad.
  unfold prepared in Hloop.
  destruct (dir_exists E) eqn:Hdir; simpl.
  - simpl in Hloop. rewrite Hloop. reflexivity.
  - destruct Hready as [Hready | Hmk]; [congruence|].
    rewrite Hmk. simpl. simpl in Hloop.
    rewrite <- !app_assoc. simpl. rewrite Hloop. reflexivity.
Qed.

(** ** Paths *)

Lemma append_nil t : "" +:+ t = t.
Proof. reflexivity. Qed.

Lemma append_cons c s t : String c s +:+ t = String c (s +:+ t).
Proof. reflexivity. Qed.

Lemma length_append s t :
  String.length (s +:+ t) = String.length s + String.length t.
Proof.
  induction s as [|c s IH]; [reflexivity|].
  rewrite append_cons. simpl. rewrite IH. reflexivity.
Qed.

Lemma append_inv_tail s1 : forall s2 t, s1 +:+ t = s2 +:+ t -> s1 = s2.
Proof.
  induction s1 as [|c s1 IH]; intros [|c' s2] t H; [reflexivity| | |].
  - apply (f_equal String.length) in H.
    rewrite append_nil, length_append in H. simpl in H. lia.
  - apply (f_equal String.length) in H.
    rewrite append_nil, length_append in H. simpl in H. lia.
  - rewrite !append_cons in H. injection H as -> H.
    f_equal. exact (IH _ _ H).
Qed.

Lemma file_name_inj s1 s2 : file_name s1 = file_name s2 -> s1 = s2.
Proof. unfold file_name. apply append_inv_tail. Qed.

Lemma output_path_unfold symbol :
  output_path symbol =
  if startswith_sep (file_name symbol) then file_name symbol
  else "data/stock/" +:+ file_name symbol.
Proof. reflexivity. Qed.

(** A symbol that does not start with the separator is stored under the
    output directory. *)
Lemma output_path_relative symbol :
  startswith_sep symbol = false ->
  output_path symbol = "data/stock/" +:+ symbol +:+ ".json".
Proof.
  intros H. rewrite output_path_unfold. unfold file_name.
  destruct symbol as [|c s]; [reflexivity|].
  rewrite append_cons. simpl in *. rewrite H. reflexivity.
Qed.

(** Two symbols never share a file. *)
Lemma output_path_inj s1 s2 : output_path s1 = output_path s2 -> s1 = s2.
Proof.
  rewrite !output_path_unfold.
  destruct (startswith_sep (file_name s1)) eqn:H1,
           (startswith_sep (file_name s2)) eqn:H2; intros H.
  - exact (file_name_inj _ _ H).
  - rewrite H in H1. discriminate.
  - rewrite <- H in H2. discriminate.
  - apply file_name_inj. exact (String.app_inj _ _ _ H).
Qed.

(** ** A symbol's file across the loop *)

Lemma other_symbols_paths symbol (rest : list (string * string)) :
  ~ In symbol (map fst rest) ->
  forall s, In s (map fst rest) -> output_path symbol <> output_path s.
Proof.
  intros Hnot s Hs Heq. apply output_path_inj in Heq. subst s. exact (Hnot Hs).
Qed.

(** The file of a symbol that succeeds holds its series when the loop ends. *)
Lemma for_each_saved E total symbol ts registry : forall st st',
  NoDup (map fst registry) ->
  In symbol (map fst registry) ->
  succeeds E symbol ts ->
  for_each registry (loop_body E total) st = (Val tt, st') ->
  files st' !! output_path symbol = Some (Dumped ts).
Proof.
  induction registry as [|[s d] rest IH]; intros st st' Hnd Hin Hok Hrun;
    [contradiction|].
  simpl in Hnd, Hin. apply NoDup_cons in Hnd as [Hfresh Hnd].
  rewrite for_each_cons in Hrun.
  destruct (decide (s = symbol)) as [-> | Hne].
  - rewrite (loop_body_succeeds E total symbol d st ts Hok), pause_cases in Hrun.
    match type of Hrun with
    | for_each _ _ ?s1 = _ =>
        destruct (for_each_spec E total rest s1) as (st2 & Hrest & _ & _ & _ & Hframe & _);
        assert (Hfile : files s1 !! output_path symbol = Some (Dumped ts))
    end.
    { destruct (Nat.ltb _ _); simpl; apply lookup_insert_eq. }
    rewrite Hrest in Hrun. injection Hrun as <-.
    rewrite Hframe; [exact Hfile|].
    apply other_symbols_paths. rewrite <- list_elem_of_In. exact Hfresh.
  - destruct Hin as [Heq | Hin]; [contradiction|].
    destruct (loop_body_spec E total s d st) as (sig & st1 & evs & Hbody & Hsig & _).
    rewrite Hbody in Hrun.
    destruct Hsig as [-> | ->]; exact (IH st1 st' Hnd Hin Hok Hrun).
Qed.

(** The file of a symbol whose iteration writes nothing is as it was. *)
Lemma for_each_untouched E total symbol registry : forall st st',
  NoDup (map fst registry) ->
  (forall d st0, files (snd (loop_body E total (symbol, d) st0)) = files st0) ->
  for_each registry (loop_body E total) st = (Val tt, st') ->
  files st' !! output_path symbol = files st !! output_path symbol.
Proof.
  induction registry as [|[s d] rest IH]; intros st st' Hnd Hidle Hrun.
  - injection Hrun as <-. reflexivity.
  - simpl in Hnd. apply NoDup_cons in Hnd as [Hfresh Hnd].
    rewrite for_each_cons in Hrun.
    destruct (loop_body_spec E total s d st)
      as (sig & st1 & evs & Hbody & Hsig & _ & _ & _ & _ & Hframe & _).
    rewrite Hbody in Hrun.
    assert (Hstep : files st1 !! output_path symbol = files st !! output_path symbol).
    { destruct (decide (s = symbol)) as [-> | Hne].
      - specialize (Hidle d st). rewrite Hbody in Hidle. simpl in Hidle.
        rewrite Hidle. reflexivity.
      - apply Hframe. intros Heq. apply output_path_inj in Heq. congruence. }
    rewrite <- Hstep.
    destruct Hsig as [-> | ->]; exact (IH st1 st' Hnd Hidle Hrun).
Qed.

(** When every symbol succeeds, every iteration writes. *)
Lemma for_each_all_succeed E total registry : forall st st',
  (forall symbol, In symbol (map fst registry) -> exists ts, succeeds E symbol ts) ->
  for_each registry (loop_body E total) st = (Val tt, st') ->
  writes (trace st') = writes (trace st) + length registry.
Proof.
  induction registry as [|[s d] rest IH]; intros st st' Hall Hrun.
  - injection Hrun as <-. simpl. lia.
  - destruct (Hall s) as [ts Hok]; [simpl; auto|].
    rewrite for_each_cons, (loop_body_succeeds E total s d st ts Hok), pause_cases in Hrun.
    simpl in Hrun.
    rewrite (IH _ st' (fun x Hx => Hall x (or_intror Hx)) Hrun).
    destruct (Nat.ltb _ _); simpl; rewrite ?writes_app; unfold writes; simpl; lia.
Qed.

(** * The properties of the specification *)

(** ** Sleeps *)

(** When every symbol succeeds the loop sleeps between the symbols and not
    after the last one. *)
Lemma for_each_sleeps_all_succeed E total registry : forall st st',
  (forall symbol, In symbol (map fst registry) -> exists ts, succeeds E symbol ts) ->
  symbols_processed st + length registry = total ->
  for_each registry (loop_body E total) st = (Val tt, st') ->
  sleeps (trace st') = sleeps (trace st) + (length registry - 1).
Proof.
  induction registry as [|[s d] rest IH]; intros st st' Hall Hlen Hrun.
  - injection Hrun as <-. simpl. lia.
  - destruct (Hall s) as [ts Hok]; [simpl; auto|].
    rewrite for_each_cons, (loop_body_succeeds E total s d st ts Hok), pause_cases in Hrun.
    cbn [length] in Hlen.
    change (symbols_processed (saved st total s d ts)) with (symbols_processed st + 1) in Hrun.
    destruct (Nat.ltb_spec (symbols_processed st + 1) total) as [Hlt | Hge].
    + apply IH in Hrun; [|intros x Hx; apply Hall; right; exact Hx|simpl; lia].
      rewrite Hrun. simpl trace. rewrite !sleeps_app. unfold sleeps. simpl.
      destruct rest; simpl in *; lia.
    + assert (rest = []) as -> by (destruct rest; simpl in *; [reflexivity|lia]).
      injection Hrun as <-. simpl trace. rewrite !sleeps_app. unfold sleeps.
      simpl. lia.
Qed.

(** C1.  The claim: over N symbols the loop sleeps exactly N-1 times,
    whatever succeeded or failed.  The code does not: the guard of the wait
    compares the success counter, not the position in the registry, with
    the total, and the [continue] of a refused symbol skips the wait
    altogether.  Over the five symbols of [SYMBOLS], with a server error on
    the first one and the others served, it sleeps five times, the last
    time after the last symbol; with every symbol refused it does not sleep
    at all. *)
Theorem sleeps_follow_the_success_counter :
  length SYMBOLS = 5 /\
  sleeps (trace (run first_fails SYMBOLS ∅)) = 5 /\
  last (trace (run first_fails SYMBOLS ∅)) = Some (Print (LSummary 4 5)) /\
  rev (trace (run first_fails SYMBOLS ∅)) !! 1 = Some (Sleep 15) /\
  sleeps (trace (run all_refused SYMBOLS ∅)) = 0.
Proof. vm_compute. repeat split. Qed.

(** ** Runs *)

Lemma run_ready E registry fs :
  directory_ready E ->
  exists st1,
    for_each registry (loop_body E (length registry)) (prepared E (initial fs)) = (Val tt, st1) /\
    run E registry fs =
      log st1 [Print (LSummary (symbols_processed st1) (length registry))].
Proof.
  intros Hready.
  destruct (fetch_and_save_runs E registry (initial fs) Hready) as (st1 & Hloop & Hrun).
  exists st1. split; [exact Hloop|]. unfold run. rewrite Hrun. reflexivity.
Qed.

Lemma run_aborted E registry fs :
  ~ directory_ready E ->
  run E registry fs = log (initial fs) [Print LStart; Print LDirError].
Proof.
  intros Hnot. unfold run, directory_ready in *.
  rewrite fetch_and_save_aborts; [reflexivity| |].
  - destruct (dir_exists E); [tauto|reflexivity].
  - destruct (makedirs_ok E); [tauto|reflexivity].
Qed.

Lemma directory_ready_dec E : directory_ready E \/ ~ directory_ready E.
Proof.
  unfold directory_ready.
  destruct (dir_exists E), (makedirs_ok E); auto.
  right. intros [H | H]; discriminate.
Qed.

(** ** The persisted artifact *)

(** C2.  For every symbol of the registry whose response passes the checks
    and whose file can be written, the file at the symbol's output path
    holds, when the run ends, exactly the value found under
    "Time Series (Daily)" in the response, not the response itself. *)
Theorem saved_file_holds_the_time_series E registry fs symbol ts :
  directory_ready E ->
  NoDup (map fst registry) ->
  In symbol (map fst registry) ->
  succeeds E symbol ts ->
  files (run E registry fs) !! output_path symbol = Some (Dumped ts).
Proof.
  intros Hready Hnd Hin Hok.
  destruct (run_ready E registry fs Hready) as (st1 & Hloop & ->).
  simpl. exact (for_each_saved E _ symbol ts registry _ st1 Hnd Hin Hok Hloop).
Qed.

Lemma SYMBOLS_NoDup : NoDup (map fst SYMBOLS).
Proof.
  repeat (apply NoDup_cons_2; [rewrite list_elem_of_In; simpl; intuition discriminate|]).
  apply NoDup_nil_2.
Defined.

Lemma all_served_succeeds symbol : succeeds all_served symbol sample_series.
Proof.
  exists (answer 200 sample_envelope),
    [ ("Meta Data", PyDict [ ("2. Symbol", PyStr "SPY") ]);
      ("Time Series (Daily)", sample_series) ].
  split; [reflexivity|]. split; [left; reflexivity|]. split; [reflexivity|].
  split; [|reflexivity].
  split; [reflexivity|]. split; [left; reflexivity|]. split; reflexivity.
Defined.

Lemma saved_file_holds_the_time_series_witness :
  directory_ready all_served /\
  NoDup (map fst SYMBOLS) /\
  In "EXS1.DE" (map fst SYMBOLS) /\
  succeeds all_served "EXS1.DE" sample_series /\
  files (run all_served SYMBOLS ∅) !! "data/stock/EXS1.DE.json" = Some (Dumped sample_series).
Proof.
  assert (Hready : directory_ready all_served) by (left; reflexivity).
  assert (Hin : In "EXS1.DE" (map fst SYMBOLS)) by (simpl; auto).
  split; [exact Hready|]. split; [exact SYMBOLS_NoDup|]. split; [exact Hin|].
  split; [exact (all_served_succeeds "EXS1.DE")|].
  exact (saved_file_holds_the_time_series all_served SYMBOLS ∅ "EXS1.DE" sample_series
           Hready SYMBOLS_NoDup Hin (all_served_succeeds "EXS1.DE")).
Defined.

(** ** Classification of a response *)

Lemma log_log st evs1 evs2 : log (log st evs1) evs2 = log st (evs1 ++ evs2).
Proof. unfold log. simpl. rewrite <- app_assoc. reflexivity. Qed.

Lemma no_rate_limit_rest {A} items (rest : A) (limited : pyval -> A) (fails : A) :
  no_rate_limit items ->
  match assoc "Note" items with
  | Some note =>
      match py_in "API call frequency" note with
      | Val true => limited note
      | Val false => rest
      | _ => fails
      end
  | None => rest
  end = rest.
Proof. intros [-> | (note & -> & ->)]; reflexivity. Qed.

(** X14.  A "Note" whose value is a number, a boolean or [None] cannot be
    searched: the test of line 74 raises [TypeError], which the last
    [except] clause reports, and the symbol is not saved even when the
    series is there. *)
Lemma note_not_searchable E total symbol description st r items note :
  http E symbol = GetResponse r ->
  accepted r ->
  body r = JsonValue (PyDict items) ->
  has_key "Error Message" items = false ->
  assoc "Note" items = Some note ->
  (forall b, py_in "API call frequency" note <> Val b) ->
  loop_body E total (symbol, description) st =
  pause total (log st (header st total symbol description ++ [Print LUnknownError])).
Proof.
  intros Hget Hok Hbody Herr%has_key_false Hnote Hraise.
  rewrite (loop_body_response E total symbol description st r _ Hget Hok Hbody).
  pose proof (extract_dict E items (log st (header st total symbol description))) as Hex.
  cbv zeta in Hex. rewrite Herr, Hnote in Hex.
  assert (Hex' : extract_time_series E (PyDict items)
                   (log st (header st total symbol description)) =
                 (Raise TypeError, log st (header st total symbol description))).
  { destruct (py_in "API call frequency" note) as [b| | |e]; auto.
    destruct (Hraise b eq_refl). }
  unfold try_except, bind at 1 2. rewrite Hex'. simpl.
  unfold print, emit. simpl. rewrite <- app_assoc. reflexivity.
Qed.

(** ** Refused symbols *)

Lemma status_cases r : accepted r \/ error_status r.
Proof. unfold accepted, error_status. lia. Qed.

(** An iteration whose response holds "Error Message" changes neither the
    files nor the counter, and writes nothing. *)
Lemma error_message_iteration E total symbol description st r items :
  http E symbol = GetResponse r ->
  body r = JsonValue (PyDict items) ->
  has_key "Error Message" items = true ->
  let st' := snd (loop_body E total (symbol, description) st) in
  files st' = files st /\
  symbols_processed st' = symbols_processed st /\
  writes (trace st') = writes (trace st).
Proof.
  intros Hget Hbody Herr.
  destruct (status_cases r) as [Hok | Hbad].
  - apply has_key_true in Herr as [message Hm].
    pose proof (extract_dict E items (log st (header st total symbol description))) as Hex.
    cbv zeta in Hex. rewrite Hm in Hex.
    destruct (printable E message).
    + rewrite (loop_body_skips E total symbol description st r _ _ Hget Hok Hbody Hex).
      simpl. rewrite !writes_app. unfold writes. simpl. repeat split; lia.
    + rewrite (loop_body_unknown E total symbol description st r _ _ _ Hget Hok Hbody Hex)
        by auto.
      rewrite pause_cases. simpl.
      destruct (Nat.ltb _ _); simpl; rewrite !writes_app; unfold writes; simpl;
        repeat split; lia.
  - rewrite (loop_body_request_failed E total symbol description st r Hget Hbad).
    rewrite pause_cases. simpl.
    destruct (Nat.ltb _ _); simpl; rewrite !writes_app; unfold writes; simpl;
      repeat split; lia.
Qed.

(** C4.  For any symbol whose response contains the key "Error Message",
    the iteration of that symbol writes no file and does not increment the
    success counter, and the symbol's file is after the run what it was
    before. *)
Theorem error_message_writes_no_file E registry fs symbol r items :
  NoDup (map fst registry) ->
  http E symbol = GetResponse r ->
  body r = JsonValue (PyDict items) ->
  has_key "Error Message" items = true ->
  (forall total description st,
     let st' := snd (loop_body E total (symbol, description) st) in
     files st' = files st /\
     symbols_processed st' = symbols_processed st /\
     writes (trace st') = writes (trace st)) /\
  files (run E registry fs) !! output_path symbol = fs !! output_path symbol.
Proof.
  intros Hnd Hget Hbody Herr. split.
  - intros total description st.
    exact (error_message_iteration E total symbol description st r items Hget Hbody Herr).
  - destruct (directory_ready_dec E) as [Hready | Hnot].
    + destruct (run_ready E registry fs Hready) as (st1 & Hloop & ->). simpl.
      rewrite (for_each_untouched E (length registry) symbol registry
                 (prepared E (initial fs)) st1 Hnd);
        [reflexivity| |exact Hloop].
      intros d st0.
      apply (error_message_iteration E _ symbol d st0 r items Hget Hbody Herr).
    + rewrite (run_aborted E registry fs Hnot). reflexivity.
Qed.

Lemma error_message_writes_no_file_witness :
  NoDup (map fst SYMBOLS) /\
  has_key "Error Message" [ ("Error Message", PyStr "Invalid API call.") ] = true /\
  files (run all_refused SYMBOLS ∅) !! "data/stock/QQQ.json" = None /\
  symbols_processed (run all_refused SYMBOLS ∅) = 0.
Proof.
  split; [exact SYMBOLS_NoDup|]. split; [reflexivity|].
  destruct (error_message_writes_no_file all_refused SYMBOLS ∅ "QQQ" _ _
              SYMBOLS_NoDup eq_refl eq_refl eq_refl) as [_ Hfile].
  split; [exact Hfile|reflexivity].
Defined.

(** ** Notes that are not about the call frequency *)

(** C9.  For a symbol whose response contains the key "Note" with a value
    that does not contain the substring "API call frequency", and none of
    the keys "Error Message", "Information" and "Time Series (Daily)", the
    response is not taken for a rate limit: the iteration reaches the
    missing-key branch and the symbol is skipped, no file being written. *)
Theorem note_without_frequency_is_a_missing_key E total symbol description st r items s :
  http E symbol = GetResponse r ->
  accepted r ->
  body r = JsonValue (PyDict items) ->
  assoc "Note" items = Some (PyStr s) ->
  is_substring "API call frequency" s = false ->
  has_key "Error Message" items = false ->
  has_key "Information" items = false ->
  has_key "Time Series (Daily)" items = false ->
  loop_body E total (symbol, description) st =
  (Continue, log st (header st total symbol description ++ [Print LMissingKey])).
Proof.
  intros Hget Hok Hbody Hnote Hsub Herr%has_key_false Hinfo%has_key_false Hts%has_key_false.
  pose proof (extract_dict E items (log st (header st total symbol description))) as Hex.
  cbv zeta in Hex. rewrite Herr, Hnote, Hinfo, Hts in Hex. simpl in Hex.
  rewrite Hsub, log_log in Hex.
  exact (loop_body_skips E total symbol description st r _ _ Hget Hok Hbody Hex).
Qed.

Lemma note_without_frequency_is_a_missing_key_witness :
  is_substring "API call frequency" "Thank you for using Alpha Vantage!" = false /\
  loop_body thanked 5 ("SPY", "S&P 500 (SPY)") (initial ∅) =
    (Continue,
     log (initial ∅)
       [ Print (LHeader 1 5 "SPY" "S&P 500 (SPY)");
         HttpGet BASE_URL (request_params "SPY");
         Print LMissingKey ]).
Proof.
  split; [reflexivity|].
  exact (note_without_frequency_is_a_missing_key thanked 5 "SPY" "S&P 500 (SPY)"
           (initial ∅) _ _ _ eq_refl (or_introl eq_refl) eq_refl eq_refl eq_refl
           eq_refl eq_refl eq_refl).
Defined.

(** ** Failures *)

Lemma prepared_trace E fs :
  requested (trace (prepared E (initial fs))) = [] /\
  writes (trace (prepared E (initial fs))) = 0 /\
  failures (trace (prepared E (initial fs))) = 0 /\
  forall p v, ~ In (FileWrite p v) (trace (prepared E (initial fs))).
Proof.
  unfold prepared, initial, writes, failures. simpl.
  destruct (dir_exists E); simpl; repeat split; auto;
    intros p v Hin; repeat (destruct Hin as [Hin | Hin]; try discriminate); exact Hin.
Qed.

(** C5.  Only a failure to create the output directory aborts the run, and
    it does so before any request: the run then consists of its first line
    and the error line.  Otherwise, whatever the API and the disk answer,
    no exception leaves the function, every symbol of the registry is
    requested once and in order, every symbol is either written or reported
    by a failure line, and the run ends with the summary. *)
Theorem only_a_missing_directory_aborts E registry fs :
  (dir_exists E = false -> makedirs_ok E = false ->
   fetch_and_save E registry (initial fs) =
     (Val tt, log (initial fs) [Print LStart; Print LDirError])) /\
  (directory_ready E ->
   fst (fetch_and_save E registry (initial fs)) = Val tt /\
   requested (trace (run E registry fs)) = map fst registry /\
   writes (trace (run E registry fs)) + failures (trace (run E registry fs)) =
     length registry /\
   exists n, last (trace (run E registry fs)) = Some (Print (LSummary n (length registry)))).
Proof.
  split.
  - intros Hdir Hmk. exact (fetch_and_save_aborts E registry (initial fs) Hdir Hmk).
  - intros Hready.
    destruct (fetch_and_save_runs E registry (initial fs) Hready) as (st1 & Hloop & Hrun).
    destruct (for_each_spec E (length registry) registry (prepared E (initial fs)))
      as (st1' & Hloop' & Hreq & Hone & _).
    rewrite Hloop in Hloop'. injection Hloop' as <-.
    destruct (prepared_trace E fs) as (Hreq0 & Hw0 & Hf0 & _).
    unfold run. rewrite Hrun. simpl.
    rewrite requested_app, writes_app, failures_app, Hreq, Hreq0. simpl.
    rewrite app_nil_r.
    repeat split; [unfold writes at 2, failures at 2; simpl; lia|].
    exists (symbols_processed st1). apply last_snoc.
Qed.

Lemma only_a_missing_directory_aborts_witness :
  trace (run read_only SYMBOLS ∅) = [Print LStart; Print LDirError] /\
  requested (trace (run first_fails SYMBOLS ∅)) = ["SPY"; "QQQ"; "EXS1.DE"; "ASHR"; "EWJ"].
Proof.
  destruct (only_a_missing_directory_aborts read_only SYMBOLS ∅) as [Habort _].
  destruct (only_a_missing_directory_aborts first_fails SYMBOLS ∅) as [_ Hruns].
  split.
  - unfold run. rewrite (Habort eq_refl eq_refl). reflexivity.
  - destruct (Hruns (or_introl eq_refl)) as (_ & Hreq & _). exact Hreq.
Defined.

(** ** File names *)

(** C6.  The output file name of a symbol is the ticker code followed by
    ".json", whatever punctuation the code contains; it is stored under the
    output directory; and every file a run writes is the file so named of
    a symbol of the registry. *)
Theorem files_are_named_after_their_symbol E registry fs :
  (forall symbol, In symbol (map fst registry) ->
     file_name symbol = symbol +:+ ".json" /\
     output_path symbol = os_path_join OUTPUT_DIR (symbol +:+ ".json") /\
     (startswith_sep symbol = false ->
      output_path symbol = "data/stock/" +:+ symbol +:+ ".json")) /\
  (forall path v, In (FileWrite path v) (trace (run E registry fs)) ->
     exists symbol, In symbol (map fst registry) /\
                    path = os_path_join OUTPUT_DIR (symbol +:+ ".json")).
Proof.
  split.
  - intros symbol _. repeat split. apply output_path_relative.
  - intros path v Hin.
    destruct (directory_ready_dec E) as [Hready | Hnot].
    + destruct (run_ready E registry fs Hready) as (st1 & Hloop & Hrun).
      rewrite Hrun in Hin. simpl in Hin.
      apply in_app_or in Hin as [Hin | [Hin | []]]; [|discriminate].
      destruct (for_each_spec E (length registry) registry (prepared E (initial fs)))
        as (st1' & Hloop' & _ & _ & _ & _ & Hwr & _).
      rewrite Hloop in Hloop'. injection Hloop' as <-.
      destruct (Hwr path v Hin) as [Hin0 | (symbol & Hs & ->)].
      * destruct (prepared_trace E fs) as (_ & _ & _ & Hnone).
        destruct (Hnone path v Hin0).
      * exists symbol. split; [exact Hs|reflexivity].
    + rewrite (run_aborted E registry fs Hnot) in Hin. simpl in Hin.
      repeat (destruct Hin as [Hin | Hin]; try discriminate). contradiction.
Qed.

Lemma files_are_named_after_their_symbol_witness :
  In "EXS1.DE" (map fst SYMBOLS) /\
  output_path "EXS1.DE" = "data/stock/EXS1.DE.json" /\
  In (FileWrite "data/stock/EXS1.DE.json" sample_series) (trace (run all_served SYMBOLS ∅)) /\
  exists symbol, In symbol (map fst SYMBOLS) /\
                 "data/stock/EXS1.DE.json" = os_path_join OUTPUT_DIR (symbol +:+ ".json").
Proof.
  assert (Hin : In "EXS1.DE" (map fst SYMBOLS)) by (simpl; auto).
  assert (Hwr : In (FileWrite "data/stock/EXS1.DE.json" sample_series)
                  (trace (run all_served SYMBOLS ∅))).
  { vm_compute. repeat first [left; reflexivity | right]. }
  destruct (files_are_named_after_their_symbol all_served SYMBOLS ∅) as [Hname Hfiles].
  split; [exact Hin|].
  split; [exact (proj2 (proj2 (Hname "EXS1.DE" Hin)) eq_refl)|].
  split; [exact Hwr|].
  exact (Hfiles _ _ Hwr).
Defined.

(** ** HTTP status *)

(** C7, as stated, fails: a status outside 200-299 is not always a request
    failure.  [raise_for_status] raises on 400-599 only, so a response with
    status 300 and a well-formed body is decoded, passes the checks and is
    saved, and no failure is reported. *)
Lemma status_300_is_saved :
  ~ (200 <= 300 < 300)%Z /\
  http multiple_choices "SPY" = GetResponse (answer 300 sample_envelope) /\
  files (run multiple_choices [("SPY", "S&P 500 (SPY)")] ∅) !! "data/stock/SPY.json" =
    Some (Dumped sample_series) /\
  ~ In (Print LRequestFailed) (trace (run multiple_choices [("SPY", "S&P 500 (SPY)")] ∅)) /\
  failures (trace (run multiple_choices [("SPY", "S&P 500 (SPY)")] ∅)) = 0.
Proof.
  split; [lia|]. split; [reflexivity|]. split; [reflexivity|].
  split; [|reflexivity].
  vm_compute. intros Hin.
  repeat (destruct Hin as [Hin | Hin]; try discriminate). exact Hin.
Qed.

(** C7, amended.  A 4xx or 5xx HTTP status on the GET request is a request
    failure for that symbol only: the failure is printed, the iteration
    writes no file and does not count the symbol, the symbol is requested
    once (no retry), and the iteration ends normally, so that the loop goes
    on: every symbol of the registry is requested once and in order.  Any
    other status, inside 200-299 or not, is no failure: the iteration does
    exactly what it does on a response with status 200 and the same body,
    the disk and the console being the same. *)
Theorem error_status_fails_the_symbol_only E registry fs total symbol description st r :
  http E symbol = GetResponse r ->
  directory_ready E ->
  (error_status r ->
   loop_body E total (symbol, description) st =
     pause total (log st (header st total symbol description ++ [Print LRequestFailed])) /\
   (let st' := snd (loop_body E total (symbol, description) st) in
    fst (loop_body E total (symbol, description) st) = Val tt /\
    files st' = files st /\
    symbols_processed st' = symbols_processed st /\
    writes (trace st') = writes (trace st) /\
    requested (trace st') = requested (trace st) ++ [symbol])) /\
  (~ error_status r ->
   forall E200 r200,
     http E200 symbol = GetResponse r200 ->
     status_code r200 = 200%Z ->
     body r200 = body r ->
     disk E200 = disk E ->
     printable E200 = printable E ->
     loop_body E total (symbol, description) st =
     loop_body E200 total (symbol, description) st) /\
  requested (trace (run E registry fs)) = map fst registry.
Proof.
  intros Hget Hready. split; [|split].
  - intros Hbad.
    pose proof (loop_body_request_failed E total symbol description st r Hget Hbad) as Hbody.
    split; [exact Hbody|].
    rewrite Hbody, pause_cases. simpl.
    destruct (Nat.ltb _ _); simpl;
      rewrite ?writes_app, ?requested_app; unfold writes; simpl;
      rewrite ?app_nil_r; repeat split; lia.
  - intros Hnot E200 r200 Hget200 Hstatus Hbody Hdisk Hprint.
    apply (loop_body_status_irrelevant E E200 total symbol description st r r200);
      auto.
    + destruct (status_cases r) as [Hok | Hbad]; [exact Hok|contradiction].
    + left. rewrite Hstatus. reflexivity.
  - destruct (run_ready E registry fs Hready) as (st1 & Hloop & ->).
    destruct (for_each_spec E (length registry) registry (prepared E (initial fs)))
      as (st1' & Hloop' & Hreq & _).
    rewrite Hloop in Hloop'. injection Hloop' as <-.
    simpl. rewrite requested_app, Hreq, (proj1 (prepared_trace E fs)). simpl.
    apply app_nil_r.
Qed.

Lemma error_status_fails_the_symbol_only_witness :
  http unavailable "SPY" = GetResponse (answer 503 sample_envelope) /\
  error_status (answer 503 sample_envelope) /\
  directory_ready unavailable /\
  files (snd (loop_body unavailable 5 ("SPY", "S&P 500 (SPY)") (initial ∅))) = ∅ /\
  requested (trace (run unavailable SYMBOLS ∅)) = ["SPY"; "QQQ"; "EXS1.DE"; "ASHR"; "EWJ"] /\
  ~ error_status (answer 300 sample_envelope) /\
  loop_body multiple_choices 5 ("SPY", "S&P 500 (SPY)") (initial ∅) =
  loop_body all_served 5 ("SPY", "S&P 500 (SPY)") (initial ∅).
Proof.
  assert (Hbad : error_status (answer 503 sample_envelope)) by (unfold error_status; simpl; lia).
  assert (Hready : directory_ready unavailable) by (left; reflexivity).
  assert (Hnot : ~ error_status (answer 300 sample_envelope))
    by (unfold error_status; simpl; lia).
  assert (Hready' : directory_ready multiple_choices) by (left; reflexivity).
  split; [reflexivity|]. split; [exact Hbad|]. split; [exact Hready|].
  destruct (error_status_fails_the_symbol_only unavailable SYMBOLS ∅ 5 "SPY"
              "S&P 500 (SPY)" (initial ∅) _ eq_refl Hready)
    as (Hfails & _ & Hreq).
  destruct (Hfails Hbad) as (_ & _ & Hfiles & _).
  split; [exact Hfiles|]. split; [exact Hreq|]. split; [exact Hnot|].
  destruct (error_status_fails_the_symbol_only multiple_choices SYMBOLS ∅ 5 "SPY"
              "S&P 500 (SPY)" (initial ∅) _ eq_refl Hready')
    as (_ & Hsame & _).
  exact (Hsame Hnot all_served (answer 200 sample_envelope) eq_refl eq_refl eq_refl
           eq_refl eq_refl).
Defined.

(** ** The summary and the counter *)

Lemma for_each_counter E registry st st1 :
  for_each registry (loop_body E (length registry)) (prepared E st) = (Val tt, st1) ->
  symbols_processed st1 + writes (trace st) = writes (trace st1) /\
  writes (trace st1) <= writes (trace st) + length registry.
Proof.
  intros Hloop.
  destruct (for_each_spec E (length registry) registry (prepared E st))
    as (st1' & Hloop' & _ & _ & Hcount & _ & _ & Hle).
  rewrite Hloop in Hloop'. injection Hloop' as <-.
  assert (Hw : writes (trace (prepared E st)) = writes (trace st)).
  { unfold prepared. simpl. rewrite writes_app.
    destruct (dir_exists E); unfold writes; simpl; lia. }
  rewrite Hw in *. simpl in Hcount. lia.
Qed.

(** C8.  After the loop the summary, the last line of the run, reports the
    number of symbols written out of the number of symbols of the registry;
    when all N symbols succeed it reports N out of N. *)
Theorem summary_reports_successes_out_of_total E registry fs :
  directory_ready E ->
  exists tr,
    trace (run E registry fs) = tr ++ [Print (LSummary (writes tr) (length registry))] /\
    symbols_processed (run E registry fs) = writes tr /\
    ((forall symbol, In symbol (map fst registry) -> exists ts, succeeds E symbol ts) ->
     writes tr = length registry).
Proof.
  intros Hready.
  destruct (run_ready E registry fs Hready) as (st1 & Hloop & ->).
  destruct (for_each_counter E registry (initial fs) st1 Hloop) as [Hcount _].
  simpl in Hcount. rewrite Nat.add_0_r in Hcount.
  exists (trace st1). simpl. rewrite Hcount. repeat split.
  intros Hall.
  rewrite (for_each_all_succeed E _ registry _ st1 Hall Hloop).
  rewrite (proj1 (proj2 (prepared_trace E fs))). reflexivity.
Qed.

Lemma summary_reports_successes_out_of_total_witness :
  directory_ready all_served /\
  last (trace (run all_served SYMBOLS ∅)) = Some (Print (LSummary 5 5)) /\
  last (trace (run first_fails SYMBOLS ∅)) = Some (Print (LSummary 4 5)).
Proof.
  assert (Hready : directory_ready all_served) by (left; reflexivity).
  assert (Hready' : directory_ready first_fails) by (left; reflexivity).
  split; [exact Hready|].
  destruct (summary_reports_successes_out_of_total all_served SYMBOLS ∅ Hready)
    as (tr & Htr & _ & Hall).
  destruct (summary_reports_successes_out_of_total first_fails SYMBOLS ∅ Hready')
    as (tr' & Htr' & Hcount' & _).
  split.
  - rewrite Htr, Hall; [apply last_snoc|].
    intros symbol _. exists sample_series. apply all_served_succeeds.
  - rewrite Htr', <- Hcount'. apply last_snoc.
Defined.

(** C10.  The success counter starts at zero: whatever it held before the
    call, at the end of the call it is the number of files written during
    the call.  An iteration leaves it as it is or adds one to it, and adds
    one exactly when it has written its file.  Its final value is at most
    the number of symbols of the registry. *)
Theorem success_counter_counts_written_files E registry st :
  directory_ready E ->
  (forall total item st0,
     let st' := snd (loop_body E total item st0) in
     (symbols_processed st' = symbols_processed st0 /\
      writes (trace st') = writes (trace st0)) \/
     (symbols_processed st' = symbols_processed st0 + 1 /\
      writes (trace st') = writes (trace st0) + 1)) /\
  (let st' := snd (fetch_and_save E registry st) in
   symbols_processed st' + writes (trace st) = writes (trace st') /\
   symbols_processed st' <= length registry).
Proof.
  intros Hready. split.
  - intros total [symbol description] st0.
    destruct (loop_body_spec E total symbol description st0)
      as (sig & st1 & evs & Hbody & _ & Htr & _ & Hone & Hcount & _).
    rewrite Hbody. simpl. rewrite Htr, !writes_app.
    change (writes (header st0 total symbol description)) with 0. lia.
  - destruct (fetch_and_save_runs E registry st Hready) as (st1 & Hloop & ->).
    destruct (for_each_counter E registry st st1 Hloop) as [Hcount Hle].
    simpl. rewrite writes_app.
    change (writes [Print (LSummary (symbols_processed st1) (length registry))]) with 0.
    lia.
Qed.

Lemma success_counter_counts_written_files_witness :
  directory_ready first_fails /\
  symbols_processed (snd (fetch_and_save first_fails SYMBOLS
                            {| symbols_processed := 7; files := ∅; trace := [] |})) = 4 /\
  writes (trace (run first_fails SYMBOLS ∅)) = 4.
Proof.
  assert (Hready : directory_ready first_fails) by (left; reflexivity).
  split; [exact Hready|].
  destruct (success_counter_counts_written_files first_fails SYMBOLS
              {| symbols_processed := 7; files := ∅; trace := [] |} Hready)
    as (_ & Hcount & _).
  assert (Hw : writes (trace (snd (fetch_and_save first_fails SYMBOLS
                 {| symbols_processed := 7; files := ∅; trace := [] |}))) = 4)
    by (vm_compute; reflexivity).
  split; [|vm_compute; reflexivity].
  rewrite Hw in Hcount.
  exact (eq_trans (eq_sym (Nat.add_0_r _)) Hcount).
Defined.

(** * Further properties of the script *)

(** ** What an iteration does after its request *)

Lemma saves_app tr1 tr2 : saves (tr1 ++ tr2) = saves tr1 + saves tr2.
Proof. unfold saves. rewrite List.filter_app. apply List.length_app. Qed.

Lemma makedirs_calls_app tr1 tr2 :
  makedirs_calls (tr1 ++ tr2) = makedirs_calls tr1 + makedirs_calls tr2.
Proof. unfold makedirs_calls. rewrite List.filter_app. apply List.length_app. Qed.

Ltac finish_events :=
  rewrite ?pause_cases; simpl;
  match goal with
  | |- context [Nat.ltb ?a ?b] => destruct (Nat.ltb a b) eqn:?
  | _ => idtac
  end;
  eexists _, _, _; (split; [reflexivity|]); simpl;
  (split; [norm_trace; reflexivity|]);
  repeat match goal with
         | H : _ \/ _ |- _ => destruct H as [H|H]
         | H : ex _ |- _ => destruct H as [? H]
         end; subst; simpl;
  (split; [repeat (match goal with |- Forall _ _ => constructor end);
           simpl; auto; reflexivity|]);
  (split; [unfold sleeps; simpl;
           repeat match goal with H : Nat.ltb _ _ = _ |- _ => rewrite H end;
           reflexivity|]);
  reflexivity.

(** After its request an iteration only prints, writes the file of its own
    symbol and sleeps for the call interval; it sleeps when it did not end
    in [continue] and the counter is below the total; and it prints as many
    success lines as it writes files. *)
Lemma loop_body_events E total symbol description st :
  exists sig st' evs,
    loop_body E total (symbol, description) st = (sig, st') /\
    trace st' = trace st ++ header st total symbol description ++ evs /\
    Forall (after_request symbol) evs /\
    sleeps evs =
      match sig with
      | Continue => 0
      | _ => if Nat.ltb (symbols_processed st') total then 1 else 0
      end /\
    saves evs = writes evs.
Proof.
  unfold loop_body, report_failure, try_except, requests_get, raise_for_status,
    response_json, header.
  unfold_monad. simpl.
  destruct (http E symbol) as [|r]; simpl.
  { finish_events. }
  destruct ((400 <=? status_code r)%Z && (status_code r <? 600)%Z); simpl.
  { finish_events. }
  destruct (body r) as [e|data]; simpl.
  { destruct e; simpl; finish_events. }
  match goal with
  | |- context [extract_time_series E data ?s] =>
      pose proof (extract_cases E data s) as H;
      destruct (extract_time_series E data s) as [[ts| | |e] st2]
  end.
  - destruct H as [-> _]. rewrite save_cases.
    destruct (disk E (output_path symbol)) as [| |e]; [| |destruct e]; simpl.
    all: finish_events.
  - destruct H as (l & before & -> & Hl & [-> | ->]);
      destruct l; try discriminate Hl; clear Hl; finish_events.
  - contradiction.
  - destruct H as [[-> | ->] [-> | [-> | ->]]]; simpl; finish_events.
Qed.

Lemma after_request_in_a_run registry symbol e :
  In symbol (map fst registry) -> after_request symbol e -> in_a_run registry e.
Proof.
  intros Hin.
  destruct e as [l|path|url params|path v|seconds]; simpl;
    [auto | contradiction | contradiction | intros ->; exists symbol; auto | auto].
Qed.

Lemma after_request_no_makedirs symbol evs :
  Forall (after_request symbol) evs -> makedirs_calls evs = 0.
Proof.
  induction 1 as [|e evs He _ IH]; [reflexivity|].
  destruct e; try contradiction; exact IH.
Qed.

Lemma header_in_a_run registry symbol st total description :
  In symbol (map fst registry) ->
  Forall (in_a_run registry) (header st total symbol description).
Proof.
  intros Hin. unfold header. repeat constructor.
  exists symbol. split; [exact Hin|reflexivity].
Qed.

(** The events of the loop, over a part [registry] of the whole registry
    [all]. *)
Lemma for_each_events E total all registry : forall st st',
  (forall symbol, In symbol (map fst registry) -> In symbol (map fst all)) ->
  for_each registry (loop_body E total) st = (Val tt, st') ->
  exists evs,
    trace st' = trace st ++ evs /\
    Forall (in_a_run all) evs /\
    saves evs = writes evs /\
    makedirs_calls evs = 0 /\
    sleeps evs <= length registry.
Proof.
  induction registry as [|[symbol description] rest IH]; intros st st' Hsub Hrun.
  - injection Hrun as <-. exists []. rewrite app_nil_r.
    repeat split; auto.
  - rewrite for_each_cons in Hrun.
    destruct (loop_body_events E total symbol description st)
      as (sig & st1 & evs1 & Hbody & Htr & Hall & Hsleep & Hsaves).
    rewrite Hbody in Hrun.
    assert (Hrest : for_each rest (loop_body E total) st1 = (Val tt, st')).
    { destruct (loop_body_spec E total symbol description st)
        as (sig' & st1' & _ & Hbody' & Hsig & _).
      rewrite Hbody in Hbody'. injection Hbody' as <- <-.
      destruct Hsig as [-> | ->]; exact Hrun. }
    destruct (IH st1 st' (fun s Hs => Hsub s (or_intror Hs)) Hrest)
      as (evs & Htr' & Hall' & Hsaves' & Hmk' & Hsleep').
    assert (Hin : In symbol (map fst all)) by (apply Hsub; simpl; auto).
    exists (header st total symbol description ++ evs1 ++ evs).
    split; [rewrite Htr', Htr, <- !app_assoc; reflexivity|].
    split.
    { apply Forall_app. split; [apply header_in_a_run; exact Hin|].
      apply Forall_app. split; [|exact Hall'].
      eapply Forall_impl; [exact Hall|].
      intros e. apply after_request_in_a_run. exact Hin. }
    rewrite !saves_app, !writes_app, !makedirs_calls_app, !sleeps_app.
    rewrite Hsaves, Hsaves', Hmk', (after_request_no_makedirs symbol evs1 Hall).
    assert (Hs1 : sleeps evs1 <= 1)
      by (rewrite Hsleep; destruct sig; try destruct (Nat.ltb _ _); lia).
    change (saves (header st total symbol description)) with 0.
    change (writes (header st total symbol description)) with 0.
    change (makedirs_calls (header st total symbol description)) with 0.
    change (sleeps (header st total symbol description)) with 0.
    simpl. repeat split; lia.
Qed.

(** ** What a run does *)

Lemma run_events E registry fs :
  Forall (in_a_run registry) (trace (run E registry fs)) /\
  saves (trace (run E registry fs)) = writes (trace (run E registry fs)) /\
  sleeps (trace (run E registry fs)) <= length registry.
Proof.
  destruct (directory_ready_dec E) as [Hready | Hnot].
  - destruct (run_ready E registry fs Hready) as (st1 & Hloop & ->).
    destruct (for_each_events E (length registry) registry registry _ st1
                (fun s Hs => Hs) Hloop)
      as (evs & Htr & Hall & Hsaves & _ & Hsleep).
    assert (Hpre : exists pre,
              trace (prepared E (initial fs)) = pre /\
              Forall (in_a_run registry) pre /\
              saves pre = 0 /\ writes pre = 0 /\ sleeps pre = 0).
    { unfold prepared, initial. simpl.
      destruct (dir_exists E); eexists; (split; [reflexivity|]);
        repeat split; repeat constructor. }
    destruct Hpre as (pre & Hpre & Hpall & Hps & Hpw & Hpsl).
    cbn [log trace]. rewrite Htr, Hpre.
    rewrite !saves_app, !writes_app, !sleeps_app, Hps, Hpw, Hpsl, Hsaves.
    split; [|unfold saves, writes, sleeps in *; simpl; lia].
    repeat (apply Forall_app; split); [exact Hpall|exact Hall|repeat constructor].
  - rewrite (run_aborted E registry fs Hnot). simpl.
    split; [repeat constructor|]. unfold saves, writes, sleeps. simpl. lia.
Qed.

(** X1.  Every request of a run is a GET to the base URL of the API for a
    symbol of the registry, with the parameters function=TIME_SERIES_DAILY,
    the symbol, outputsize=compact, the API key and datatype=json. *)
Theorem every_request_is_the_daily_series_query E registry fs url params :
  In (HttpGet url params) (trace (run E registry fs)) ->
  url = "https://www.alphavantage.co/query" /\
  exists symbol,
    In symbol (map fst registry) /\
    params = [ ("function", "TIME_SERIES_DAILY");
               ("symbol", symbol);
               ("outputsize", "compact");
               ("apikey", ALPHA_VANTAGE_API_KEY);
               ("datatype", "json") ].
Proof.
  intros Hin.
  destruct (run_events E registry fs) as [Hall _].
  rewrite List.Forall_forall in Hall. exact (Hall _ Hin).
Qed.

Lemma every_request_is_the_daily_series_query_witness :
  In (HttpGet BASE_URL (request_params "SPY")) (trace (run offline SYMBOLS ∅)) /\
  exists symbol,
    In symbol (map fst SYMBOLS) /\
    request_params "SPY" =
      [ ("function", "TIME_SERIES_DAILY");
        ("symbol", symbol);
        ("outputsize", "compact");
        ("apikey", ALPHA_VANTAGE_API_KEY);
        ("datatype", "json") ].
Proof.
  assert (Hin : In (HttpGet BASE_URL (request_params "SPY")) (trace (run offline SYMBOLS ∅))).
  { vm_compute. repeat first [left; reflexivity | right]. }
  split; [exact Hin|].
  exact (proj2 (every_request_is_the_daily_series_query offline SYMBOLS ∅ _ _ Hin)).
Defined.

(** X2.  A run never sleeps more often than the registry has symbols, and
    every sleep lasts the call interval of 15 seconds. *)
Theorem sleeps_are_bounded_and_fixed E registry fs :
  sleeps (trace (run E registry fs)) <= length registry /\
  forall seconds, In (Sleep seconds) (trace (run E registry fs)) -> seconds = 15%Z.
Proof.
  destruct (run_events E registry fs) as (Hall & _ & Hle).
  split; [exact Hle|].
  intros seconds Hin. rewrite List.Forall_forall in Hall. exact (Hall _ Hin).
Qed.

(** X3.  The script reports a save exactly as often as it writes a file:
    the success lines of a run are as many as its completed writes. *)
Theorem success_lines_match_writes E registry fs :
  saves (trace (run E registry fs)) = writes (trace (run E registry fs)).
Proof. exact (proj1 (proj2 (run_events E registry fs))). Qed.

(** X4.  When every symbol of the registry succeeds, the run sleeps between
    consecutive symbols and not after the last: N-1 times for N symbols. *)
Theorem all_successes_sleep_between_symbols E registry fs :
  directory_ready E ->
  (forall symbol, In symbol (map fst registry) -> exists ts, succeeds E symbol ts) ->
  sleeps (trace (run E registry fs)) = length registry - 1.
Proof.
  intros Hready Hall.
  destruct (run_ready E registry fs Hready) as (st1 & Hloop & ->).
  simpl. rewrite sleeps_app.
  rewrite (for_each_sleeps_all_succeed E (length registry) registry
             (prepared E (initial fs)) st1 Hall eq_refl Hloop).
  unfold prepared, initial, sleeps. simpl.
  destruct (dir_exists E); simpl; lia.
Qed.

Lemma all_successes_sleep_between_symbols_witness :
  directory_ready all_served /\
  sleeps (trace (run all_served SYMBOLS ∅)) = 4.
Proof.
  assert (Hready : directory_ready all_served) by (left; reflexivity).
  split; [exact Hready|].
  exact (all_successes_sleep_between_symbols all_served SYMBOLS ∅ Hready
           (fun symbol _ => ex_intro _ sample_series (all_served_succeeds symbol))).
Defined.

(** X5.  The wait at the end of an iteration: the iteration sleeps once
    when it did not end in [continue] and the success counter is then
    below the number of symbols, and does not sleep otherwise. *)
Theorem iteration_sleeps_by_the_counter E total item st :
  sleeps (trace (snd (loop_body E total item st))) =
  sleeps (trace st) +
  match fst (loop_body E total item st) with
  | Continue => 0
  | _ => if Nat.ltb (symbols_processed (snd (loop_body E total item st))) total
         then 1 else 0
  end.
Proof.
  destruct item as [symbol description].
  destruct (loop_body_events E total symbol description st)
    as (sig & st1 & evs & Hbody & Htr & _ & Hsleep & _).
  rewrite Hbody. simpl. rewrite Htr, !sleeps_app, Hsleep.
  change (sleeps (header st total symbol description)) with 0. lia.
Qed.

(** ** The output directory *)

(** X6.  The output directory is created at most once and before anything
    else is done: when it exists [os.makedirs] is never called; when it is
    missing and can be created, the run begins with its first line, the
    creation and the line that reports it, every symbol is requested
    afterwards, and the directory is not created again. *)
Theorem directory_is_created_once_at_the_start E registry fs :
  (dir_exists E = true -> makedirs_calls (trace (run E registry fs)) = 0) /\
  (dir_exists E = false -> makedirs_ok E = true ->
   exists rest,
     trace (run E registry fs) =
       Print LStart :: MakeDirs OUTPUT_DIR :: Print LDirCreated :: rest /\
     makedirs_calls rest = 0 /\
     requested rest = map fst registry).
Proof.
  split.
  - intros Hdir.
    destruct (run_ready E registry fs (or_introl Hdir)) as (st1 & Hloop & ->).
    destruct (for_each_events E (length registry) registry registry _ st1
                (fun s Hs => Hs) Hloop) as (evs & Htr & _ & _ & Hmk & _).
    cbn [log trace]. rewrite Htr. unfold prepared, initial. rewrite Hdir.
    rewrite !makedirs_calls_app, Hmk. reflexivity.
  - intros Hdir Hmk.
    destruct (run_ready E registry fs (or_intror Hmk)) as (st1 & Hloop & ->).
    destruct (for_each_events E (length registry) registry registry _ st1
                (fun s Hs => Hs) Hloop) as (evs & Htr & _ & _ & Hmk0 & _).
    destruct (for_each_spec E (length registry) registry (prepared E (initial fs)))
      as (st1' & Hloop' & Hreq & _).
    rewrite Hloop in Hloop'. injection Hloop' as <-.
    exists (evs ++ [Print (LSummary (symbols_processed st1) (length registry))]).
    rewrite Htr in Hreq. unfold prepared, initial in Htr, Hreq.
    rewrite Hdir in Htr, Hreq. simpl in Htr, Hreq.
    cbn [log trace]. rewrite Htr. split; [reflexivity|].
    rewrite makedirs_calls_app, requested_app, Hmk0, Hreq. simpl.
    split; [reflexivity|apply app_nil_r].
Qed.

Lemma directory_is_created_once_at_the_start_witness :
  makedirs_calls (trace (run all_served SYMBOLS ∅)) = 0 /\
  makedirs_calls (trace (run fresh_checkout SYMBOLS ∅)) = 1.
Proof.
  destruct (directory_is_created_once_at_the_start all_served SYMBOLS ∅) as [Hnone _].
  destruct (directory_is_created_once_at_the_start fresh_checkout SYMBOLS ∅) as [_ Honce].
  split; [exact (Hnone eq_refl)|].
  destruct (Honce eq_refl eq_refl) as (rest & Htr & Hmk & _).
  rewrite Htr. unfold makedirs_calls in *. simpl. rewrite Hmk. reflexivity.
Defined.

(** ** Files *)

(** X7.  A run leaves every file alone that is not the output file of a
    symbol of the registry. *)
Theorem other_files_are_untouched E registry fs path :
  (forall symbol, In symbol (map fst registry) -> path <> output_path symbol) ->
  files (run E registry fs) !! path = fs !! path.
Proof.
  intros Hother.
  destruct (directory_ready_dec E) as [Hready | Hnot].
  - destruct (run_ready E registry fs Hready) as (st1 & Hloop & ->).
    destruct (for_each_spec E (length registry) registry (prepared E (initial fs)))
      as (st1' & Hloop' & _ & _ & _ & Hframe & _).
    rewrite Hloop in Hloop'. injection Hloop' as <-.
    simpl. rewrite (Hframe path Hother). reflexivity.
  - rewrite (run_aborted E registry fs Hnot). reflexivity.
Qed.

Lemma other_files_are_untouched_witness :
  (forall symbol, In symbol (map fst SYMBOLS) -> "data/stock/GLD.json" <> output_path symbol) /\
  files (run all_served SYMBOLS {[ "data/stock/GLD.json" := Incomplete ]})
    !! "data/stock/GLD.json" = Some Incomplete.
Proof.
  assert (Hother : forall symbol, In symbol (map fst SYMBOLS) ->
                     "data/stock/GLD.json" <> output_path symbol).
  { intros symbol Hin. simpl in Hin.
    repeat (destruct Hin as [<- | Hin]; [vm_compute; discriminate|]).
    contradiction. }
  split; [exact Hother|].
  rewrite (other_files_are_untouched all_served SYMBOLS
             {[ "data/stock/GLD.json" := Incomplete ]} _ Hother).
  reflexivity.
Defined.

(** X8.  Two different symbols never share an output file. *)
Theorem distinct_symbols_have_distinct_files symbol1 symbol2 :
  symbol1 <> symbol2 -> output_path symbol1 <> output_path symbol2.
Proof. intros Hne Heq. exact (Hne (output_path_inj _ _ Heq)). Qed.

Lemma distinct_symbols_have_distinct_files_witness :
  "EXS1" <> "EXS1.DE" /\ output_path "EXS1" <> output_path "EXS1.DE".
Proof.
  assert (Hne : "EXS1" <> "EXS1.DE") by discriminate.
  split; [exact Hne|exact (distinct_symbols_have_distinct_files _ _ Hne)].
Defined.

(** ** Failures of one symbol *)

Lemma pause_keeps total st :
  fst (pause total st) = Val tt /\
  files (snd (pause total st)) = files st /\
  symbols_processed (snd (pause total st)) = symbols_processed st /\
  writes (trace (snd (pause total st))) = writes (trace st) /\
  saves (trace (snd (pause total st))) = saves (trace st) /\
  failures (trace (snd (pause total st))) = failures (trace st).
Proof.
  rewrite pause_cases. simpl.
  destruct (Nat.ltb _ _); simpl;
    rewrite ?writes_app, ?saves_app, ?failures_app;
    unfold writes, saves, failures; simpl; repeat split; lia.
Qed.

(** X9.  When the request itself fails (no connection, timeout), the
    symbol is reported as a failed request and the iteration goes on to the
    wait: nothing is written, nothing is counted, and the request is not
    repeated. *)
Theorem failed_request_is_reported_and_passed_over E total symbol description st :
  http E symbol = GetFails ->
  loop_body E total (symbol, description) st =
    pause total (log st (header st total symbol description ++ [Print LRequestFailed])) /\
  files (snd (loop_body E total (symbol, description) st)) = files st /\
  symbols_processed (snd (loop_body E total (symbol, description) st)) =
    symbols_processed st /\
  requested (trace (snd (loop_body E total (symbol, description) st))) =
    requested (trace st) ++ [symbol].
Proof.
  intros Hget.
  assert (Hbody : loop_body E total (symbol, description) st =
                  pause total (log st (header st total symbol description ++
                                       [Print LRequestFailed]))).
  { unfold loop_body, report_failure, try_except, requests_get, header.
    unfold_monad. simpl. rewrite Hget. simpl. norm_trace. reflexivity. }
  split; [exact Hbody|]. rewrite Hbody, pause_cases. simpl.
  destruct (Nat.ltb _ _); simpl; rewrite ?requested_app; simpl;
    rewrite ?app_nil_r; repeat split.
Qed.

Lemma failed_request_is_reported_and_passed_over_witness :
  http offline "SPY" = GetFails /\
  files (snd (loop_body offline 5 ("SPY", "S&P 500 (SPY)") (initial ∅))) = ∅ /\
  failures (trace (run offline SYMBOLS ∅)) = 5.
Proof.
  split; [reflexivity|].
  destruct (failed_request_is_reported_and_passed_over offline 5 "SPY" "S&P 500 (SPY)"
              (initial ∅) eq_refl) as (_ & Hfiles & _).
  split; [exact Hfiles|vm_compute; reflexivity].
Defined.

(** X10.  When the body cannot be decoded, the exception of
    [response.json()] is handled by the first [except] clause it is an
    instance of: a [json.JSONDecodeError] prints the parse failure and the
    start of the body, the decode error of requests itself counts as a
    failed request, anything else is an unknown error.  In every case
    nothing is written or counted and the iteration goes on to the wait. *)
Theorem undecodable_body_is_reported_and_passed_over E total symbol description st r e :
  http E symbol = GetResponse r ->
  accepted r ->
  body r = JsonRaises e ->
  loop_body E total (symbol, description) st =
    pause total
      (log st (header st total symbol description ++
               match e with
               | RequestError | RequestsJsonError => [Print LRequestFailed]
               | JsonError => [Print LParseFailed; Print LResponseText]
               | _ => [Print LUnknownError]
               end)) /\
  files (snd (loop_body E total (symbol, description) st)) = files st /\
  symbols_processed (snd (loop_body E total (symbol, description) st)) =
    symbols_processed st.
Proof.
  intros Hget Hok Hbody.
  assert (Heq : loop_body E total (symbol, description) st =
    pause total
      (log st (header st total symbol description ++
               match e with
               | RequestError | RequestsJsonError => [Print LRequestFailed]
               | JsonError => [Print LParseFailed; Print LResponseText]
               | _ => [Print LUnknownError]
               end))).
  { unfold loop_body, report_failure, try_except, requests_get, raise_for_status,
      response_json, header.
    unfold_monad. simpl. rewrite Hget. simpl.
    rewrite (accepted_passes r Hok), Hbody. simpl.
    destruct e; simpl; norm_trace; reflexivity. }
  split; [exact Heq|]. rewrite Heq.
  destruct (pause_keeps total
              (log st (header st total symbol description ++
                 match e with
                 | RequestError | RequestsJsonError => [Print LRequestFailed]
                 | JsonError => [Print LParseFailed; Print LResponseText]
                 | _ => [Print LUnknownError]
                 end))) as (_ & Hfiles & Hcount & _).
  rewrite Hfiles, Hcount. split; reflexivity.
Qed.

Lemma undecodable_body_is_reported_and_passed_over_witness :
  accepted {| status_code := 200; body := JsonRaises JsonError |} /\
  loop_body garbled 1 ("SPY", "S&P 500 (SPY)") (initial ∅) =
    (Val tt,
     log (initial ∅)
       [ Print (LHeader 1 1 "SPY" "S&P 500 (SPY)");
         HttpGet BASE_URL (request_params "SPY");
         Print LParseFailed; Print LResponseText;
         Print (LWaiting 15); Sleep 15 ]).
Proof.
  assert (Hok : accepted {| status_code := 200; body := JsonRaises JsonError |})
    by (left; reflexivity).
  split; [exact Hok|].
  destruct (undecodable_body_is_reported_and_passed_over garbled 1 "SPY" "S&P 500 (SPY)"
              (initial ∅) _ JsonError eq_refl Hok eq_refl) as (Heq & _).
  rewrite Heq. reflexivity.
Defined.

(** The save and the wait, by what the disk does. *)
Lemma after_save E total symbol ts st1 :
  let res := (try_except (save_time_series E symbol ts) report_failure ;; pause total) st1 in
  fst res = Val tt /\
  files (snd res) = disk_effect E symbol ts (files st1) /\
  (disk E (output_path symbol) <> Written ->
   symbols_processed (snd res) = symbols_processed st1 /\
   writes (trace (snd res)) = writes (trace st1) /\
   saves (trace (snd res)) = saves (trace st1) /\
   failures (trace (snd res)) = failures (trace st1) + 1).
Proof.
  unfold try_except, bind, disk_effect. rewrite save_cases.
  destruct (disk E (output_path symbol)) as [| |e]; [| |destruct e];
    cbn -[pause insert];
    match goal with
    | |- context [pause total ?s] => pose proof (pause_keeps total s) as Hkeep
    end;
    destruct Hkeep as (Hsig & Hfiles & Hcount & Hw & Hs & Hf);
    rewrite ?Hsig, ?Hfiles, ?Hcount, ?Hw, ?Hs, ?Hf; simpl.
  all: repeat split; try congruence.
  all: rewrite ?writes_app, ?saves_app, ?failures_app;
       unfold writes, saves, failures; simpl; lia.
Qed.

(** X11.  When the response is good but the file cannot be written, the
    failure is reported once, the symbol is neither counted nor reported
    as saved, and the iteration ends normally.  If [open] failed the files
    are as they were; if the dump failed the symbol's file is left
    incomplete. *)
Theorem failed_write_is_reported_and_not_counted E total symbol description st r items ts :
  http E symbol = GetResponse r ->
  accepted r ->
  body r = JsonValue (PyDict items) ->
  carries_series items ts ->
  disk E (output_path symbol) <> Written ->
  let st' := snd (loop_body E total (symbol, description) st) in
  fst (loop_body E total (symbol, description) st) = Val tt /\
  symbols_processed st' = symbols_processed st /\
  writes (trace st') = writes (trace st) /\
  saves (trace st') = saves (trace st) /\
  failures (trace st') = failures (trace st) + 1 /\
  files st' =
    match disk E (output_path symbol) with
    | DumpFails _ => <[output_path symbol := Incomplete]> (files st)
    | _ => files st
    end.
Proof.
  intros Hget Hok Hbody Hser Hdisk.
  rewrite (loop_body_saves E total symbol description st r (PyDict items) ts _
             Hget Hok Hbody (extract_series E _ _ _ Hser)).
  destruct (after_save E total symbol ts (log st (header st total symbol description)))
    as (Hsig & Hfiles & Hrest).
  destruct (Hrest Hdisk) as (Hcount & Hw & Hs & Hf).
  cbv zeta. rewrite Hsig, Hfiles, Hcount, Hw, Hs, Hf. simpl.
  rewrite !writes_app, !saves_app, !failures_app.
  change (writes (header st total symbol description)) with 0.
  change (saves (header st total symbol description)) with 0.
  change (failures (header st total symbol description)) with 0.
  unfold disk_effect.
  destruct (disk E (output_path symbol)); [congruence| |]; repeat split; lia.
Qed.

Lemma failed_write_is_reported_and_not_counted_witness :
  carries_series
    [ ("Meta Data", PyDict [ ("2. Symbol", PyStr "SPY") ]);
      ("Time Series (Daily)", sample_series) ] sample_series /\
  disk disk_full (output_path "SPY") <> Written /\
  symbols_processed (run disk_full SYMBOLS ∅) = 0 /\
  files (snd (loop_body disk_full 5 ("SPY", "S&P 500 (SPY)") (initial ∅))) = ∅.
Proof.
  assert (Hser : carries_series
            [ ("Meta Data", PyDict [ ("2. Symbol", PyStr "SPY") ]);
              ("Time Series (Daily)", sample_series) ] sample_series).
  { split; [reflexivity|]. split; [left; reflexivity|]. split; reflexivity. }
  assert (Hdisk : disk disk_full (output_path "SPY") <> Written) by discriminate.
  split; [exact Hser|]. split; [exact Hdisk|]. split; [vm_compute; reflexivity|].
  destruct (failed_write_is_reported_and_not_counted disk_full 5 "SPY" "S&P 500 (SPY)"
              (initial ∅) _ _ _ eq_refl (or_introl eq_refl) eq_refl Hser Hdisk)
    as (_ & _ & _ & _ & _ & Hfiles).
  exact Hfiles.
Defined.

(** X12.  A decoded response that is not a JSON object is never saved: it
    is either found to lack the expected key or fails a check with a
    [TypeError], and the iteration changes neither the files nor the
    counter. *)
Theorem only_objects_are_saved E total symbol description st r data :
  http E symbol = GetResponse r ->
  body r = JsonValue data ->
  (forall items, data <> PyDict items) ->
  let st' := snd (loop_body E total (symbol, description) st) in
  files st' = files st /\
  symbols_processed st' = symbols_processed st /\
  writes (trace st') = writes (trace st).
Proof.
  intros Hget Hbody Hshape. cbv zeta.
  assert (Hres : exists sig st',
            loop_body E total (symbol, description) st = (sig, st') /\
            files st' = files st /\
            symbols_processed st' = symbols_processed st /\
            writes (trace st') = writes (trace st)).
  { destruct (status_cases r) as [Hok | Hbad].
    - rewrite (loop_body_response E total symbol description st r data Hget Hok Hbody).
      unfold try_except, bind.
      pose proof (extract_cases E data (log st (header st total symbol description))) as Hex.
      destruct (extract_time_series E data (log st (header st total symbol description)))
        as [[ts| | |e] st1].
      + destruct Hex as [_ Hget_item]. destruct data; try discriminate Hget_item.
        destruct (Hshape _ eq_refl).
      + destruct Hex as (l & before & -> & _ & Hbefore).
        eexists _, _. split; [reflexivity|].
        cbn [log trace files symbols_processed]. rewrite !writes_app.
        change (writes (header st total symbol description)) with 0.
        destruct Hbefore as [-> | ->]; unfold writes; simpl; repeat split; lia.
      + contradiction.
      + destruct Hex as [[-> | ->] [-> | [-> | ->]]]; cbn -[pause];
          match goal with
          | |- context [pause total ?s] =>
              pose proof (pause_keeps total s) as Hkeep;
              destruct (pause total s) as [sig st2]
          end;
          destruct Hkeep as (_ & Hfiles & Hcount & Hw & _); simpl in *;
          exists sig, st2; (split; [reflexivity|]);
          rewrite Hfiles, Hcount, Hw, !writes_app; unfold writes; simpl;
          repeat split; lia.
    - rewrite (loop_body_request_failed E total symbol description st r Hget Hbad).
      pose proof (pause_keeps total
                    (log st (header st total symbol description ++ [Print LRequestFailed])))
        as Hkeep.
      destruct (pause total _) as [sig st2].
      destruct Hkeep as (_ & Hfiles & Hcount & Hw & _). simpl in *.
      exists sig, st2. split; [reflexivity|].
      rewrite Hfiles, Hcount, Hw, !writes_app. unfold writes. simpl.
      repeat split; lia. }
  destruct Hres as (sig & st' & -> & Hfiles & Hcount & Hw).
  simpl. auto.
Qed.

Lemma only_objects_are_saved_witness :
  (forall items, PyList [ PyStr "Time Series (Daily)"; sample_series ] <> PyDict items) /\
  files (run array_answer SYMBOLS ∅) = ∅ /\
  files (snd (loop_body array_answer 5 ("SPY", "S&P 500 (SPY)") (initial ∅))) = ∅.
Proof.
  assert (Hshape : forall items,
            PyList [ PyStr "Time Series (Daily)"; sample_series ] <> PyDict items)
    by discriminate.
  split; [exact Hshape|]. split; [vm_compute; reflexivity|].
  destruct (only_objects_are_saved array_answer 5 "SPY" "S&P 500 (SPY)" (initial ∅) _ _
              eq_refl eq_refl Hshape) as (Hfiles & _).
  exact Hfiles.
Defined.

Lemma note_not_searchable_witness :
  has_key "Error Message" [ ("Note", PyInt 5); ("Time Series (Daily)", sample_series) ] = false /\
  (forall b, py_in "API call frequency" (PyInt 5) <> Val b) /\
  loop_body numeric_note 1 ("SPY", "S&P 500 (SPY)") (initial ∅) =
    (Val tt,
     log (initial ∅)
       [ Print (LHeader 1 1 "SPY" "S&P 500 (SPY)");
         HttpGet BASE_URL (request_params "SPY");
         Print LUnknownError;
         Print (LWaiting 15); Sleep 15 ]).
Proof.
  assert (Hraise : forall b, py_in "API call frequency" (PyInt 5) <> Val b) by discriminate.
  split; [reflexivity|]. split; [exact Hraise|].
  rewrite (note_not_searchable numeric_note 1 "SPY" "S&P 500 (SPY)" (initial ∅) _ _ _
             eq_refl (or_introl eq_refl) eq_refl eq_refl eq_refl Hraise).
  reflexivity.
Defined.

(** ** Running again *)

Lemma overwrites_id : overwrites (fun fs => fs).
Proof. intros path. left. reflexivity. Qed.

Lemma overwrites_disk_effect E symbol ts : overwrites (disk_effect E symbol ts).
Proof.
  intros path. unfold disk_effect.
  destruct (disk E (output_path symbol)); [| left; reflexivity |];
    (destruct (decide (output_path symbol = path)) as [<- | Hne];
     [ right; eexists; intros fs; apply lookup_insert_eq
     | left; intros fs; apply lookup_insert_ne; exact Hne ]).
Qed.

Lemma overwrites_compose g1 g2 :
  overwrites g1 -> overwrites g2 -> overwrites (fun fs => g2 (g1 fs)).
Proof.
  intros H1 H2 path.
  destruct (H2 path) as [Hkeep2 | [c Hput2]].
  - destruct (H1 path) as [Hkeep1 | [c Hput1]].
    + left. intros fs. rewrite Hkeep2. apply Hkeep1.
    + right. exists c. intros fs. rewrite Hkeep2. apply Hput1.
  - right. exists c. intros fs. apply Hput2.
Qed.

Lemma overwrites_idempotent g fs : overwrites g -> g (g fs) = g fs.
Proof.
  intros H. apply map_eq. intros path.
  destruct (H path) as [Hkeep | [c Hput]].
  - apply Hkeep.
  - rewrite !Hput. reflexivity.
Qed.

(** Whether the checks let a response through does not depend on the
    state. *)
Lemma extract_independent E data :
  (exists ts, forall st, extract_time_series E data st = (Val ts, st)) \/
  (forall st ts st', extract_time_series E data st <> (Val ts, st')).
Proof.
  destruct data as [|b|n|literal|s|xs|items];
    try (right; intros st ts st' Heq;
         match type of Heq with
         | extract_time_series _ ?d _ = _ => pose proof (extract_cases E d st) as Hex
         end;
         rewrite Heq in Hex; destruct Hex as [_ Hitem]; discriminate Hitem).
  pose proof (extract_dict E items) as Hd. cbv zeta in Hd. revert Hd.
  destruct (assoc "Error Message" items) as [message|];
    [intros Hd; right; intros st ts st'; rewrite Hd;
     destruct (printable E message); discriminate|].
  destruct (assoc "Information" items), (assoc "Time Series (Daily)" items) as [series|],
           (assoc "Note" items) as [note|];
    try destruct (py_in "API call frequency" note) as [[]| | |]; intros Hd;
    first [ left; exists series; intros st; rewrite Hd; reflexivity
          | right; intros st ts st'; rewrite Hd;
            repeat match goal with
                   | |- context [printable E ?v] => destruct (printable E v)
                   end; discriminate ].
Qed.

(** An iteration whose response does not pass the checks writes nothing. *)
Lemma loop_body_not_extracted E total symbol description st r data :
  http E symbol = GetResponse r ->
  accepted r ->
  body r = JsonValue data ->
  (forall st0 ts st', extract_time_series E data st0 <> (Val ts, st')) ->
  files (snd (loop_body E total (symbol, description) st)) = files st.
Proof.
  intros Hget Hok Hbody Hnot.
  rewrite (loop_body_response E total symbol description st r data Hget Hok Hbody).
  unfold try_except, bind.
  pose proof (extract_cases E data (log st (header st total symbol description))) as Hex.
  pose proof (Hnot (log st (header st total symbol description))) as Hnot'.
  destruct (extract_time_series E data (log st (header st total symbol description)))
    as [[ts| | |e] st1].
  - destruct (Hnot' ts st1 eq_refl).
  - destruct Hex as (l & before & -> & _). reflexivity.
  - contradiction.
  - destruct Hex as [[-> | ->] [-> | [-> | ->]]]; cbn -[pause];
      match goal with
      | |- context [pause total ?s] => pose proof (pause_keeps total s) as Hkeep
      end;
      destruct Hkeep as (_ & Hfiles & _); rewrite Hfiles; reflexivity.
Qed.

Lemma pause_files total st : files (snd (pause total st)) = files st.
Proof. apply pause_keeps. Qed.

Lemma after_save_files E total symbol ts st1 :
  files (snd ((try_except (save_time_series E symbol ts) report_failure ;; pause total) st1)) =
  disk_effect E symbol ts (files st1).
Proof. apply after_save. Qed.

Lemma loop_body_get_fails E total symbol description st :
  http E symbol = GetFails ->
  loop_body E total (symbol, description) st =
  pause total (log st (header st total symbol description ++ [Print LRequestFailed])).
Proof.
  intros Hget.
  unfold loop_body, report_failure, try_except, requests_get, header.
  unfold_monad. simpl. rewrite Hget. simpl. norm_trace. reflexivity.
Qed.

(** What an iteration does to the files depends on the outside world only. *)
Lemma loop_body_files E symbol :
  exists g, overwrites g /\
    forall total description st,
      files (snd (loop_body E total (symbol, description) st)) = g (files st).
Proof.
  destruct (http E symbol) as [|r] eqn:Hget.
  { exists (fun fs => fs). split; [apply overwrites_id|]. intros total description st.
    rewrite (loop_body_get_fails E total symbol description st Hget).
    rewrite pause_files. reflexivity. }
  destruct (status_cases r) as [Hok | Hbad].
  2: { exists (fun fs => fs). split; [apply overwrites_id|]. intros total description st.
       rewrite (loop_body_request_failed E total symbol description st r Hget Hbad).
       rewrite pause_files. reflexivity. }
  destruct (body r) as [e|data] eqn:Hbody.
  { exists (fun fs => fs). split; [apply overwrites_id|]. intros total description st.
    unfold loop_body, report_failure, try_except, requests_get, raise_for_status,
      response_json, header.
    unfold_monad. simpl. rewrite Hget. simpl.
    rewrite (accepted_passes r Hok), Hbody.
    destruct e; cbn -[pause];
      match goal with
      | |- context [pause total ?s] => pose proof (pause_keeps total s) as Hkeep
      end;
      destruct Hkeep as (_ & Hfiles & _); rewrite Hfiles; reflexivity. }
  destruct (extract_independent E data) as [[ts Hval] | Hnot].
  - exists (disk_effect E symbol ts). split; [apply overwrites_disk_effect|].
    intros total description st.
    rewrite (loop_body_saves E total symbol description st r data ts _ Hget Hok Hbody
               (Hval _)).
    rewrite after_save_files. reflexivity.
  - exists (fun fs => fs). split; [apply overwrites_id|]. intros total description st.
    exact (loop_body_not_extracted E total symbol description st r data Hget Hok Hbody Hnot).
Qed.

Lemma for_each_files E total registry :
  exists g, overwrites g /\
    forall st st', for_each registry (loop_body E total) st = (Val tt, st') ->
                   files st' = g (files st).
Proof.
  induction registry as [|[symbol description] rest (g2 & Hg2 & Hrest)].
  - exists (fun fs => fs). split; [apply overwrites_id|].
    intros st st' Hrun. injection Hrun as <-. reflexivity.
  - destruct (loop_body_files E symbol) as (g1 & Hg1 & Hhead).
    exists (fun fs => g2 (g1 fs)). split; [apply overwrites_compose; assumption|].
    intros st st' Hrun. rewrite for_each_cons in Hrun.
    specialize (Hhead total description st).
    destruct (loop_body_spec E total symbol description st)
      as (sig & st1 & _ & Hbody & Hsig & _).
    rewrite Hbody in Hrun, Hhead. simpl in Hhead. rewrite <- Hhead.
    apply Hrest. destruct Hsig as [-> | ->]; exact Hrun.
Qed.

(** X13.  Running the script again in the same outside world changes
    nothing: a second run over the files the first run left gives the same
    files.  Each file a run writes is replaced as a whole, whatever it held
    before. *)
Theorem a_second_run_leaves_the_same_files E registry fs :
  files (run E registry (files (run E registry fs))) = files (run E registry fs).
Proof.
  destruct (directory_ready_dec E) as [Hready | Hnot].
  - destruct (for_each_files E (length registry) registry) as (g & Hg & Hloop).
    assert (Hrun : forall fs0, files (run E registry fs0) = g fs0).
    { intros fs0.
      destruct (run_ready E registry fs0 Hready) as (st1 & Hfor & ->).
      simpl. rewrite (Hloop _ _ Hfor). reflexivity. }
    rewrite !Hrun. apply overwrites_idempotent. exact Hg.
  - rewrite !(run_aborted E registry _ Hnot). reflexivity.
Qed.

(** ** The order of the checks *)

Lemma writes_map_print lines : writes (map Print lines) = 0.
Proof. induction lines as [|l lines IH]; [reflexivity|exact IH]. Qed.

Lemma skipped_reported st total symbol description lines :
  skipped st (Continue,
              log (log st (header st total symbol description)) (map Print lines)).
Proof.
  unfold skipped. simpl. rewrite !writes_app, writes_map_print.
  change (writes (header st total symbol description)) with 0.
  repeat split; auto; lia.
Qed.

Lemma skipped_unknown st total symbol description lines :
  skipped st (pause total
                (log (log st (header st total symbol description)) (map Print lines))).
Proof.
  unfold skipped.
  destruct (pause_keeps total
              (log (log st (header st total symbol description)) (map Print lines)))
    as (Hsig & Hfiles & Hcount & Hw & _).
  rewrite Hsig, Hfiles, Hcount, Hw. simpl. rewrite !writes_app, writes_map_print.
  change (writes (header st total symbol description)) with 0.
  repeat split; auto; lia.
Qed.

(** C3, as stated, fails: a response without "Error Message" and
    "Information", whose "Note" does not mention the API call frequency and
    which holds "Time Series (Daily)", is not always persisted.  When the
    "Note" is a number the test of line 74 raises [TypeError]: the symbol
    is reported as an unknown error and nothing is written, although the
    disk would take the file. *)
Lemma numeric_note_is_not_persisted :
  http numeric_note "SPY" =
    GetResponse (answer 200 (PyDict [ ("Note", PyInt 5);
                                      ("Time Series (Daily)", sample_series) ])) /\
  has_key "Error Message" [ ("Note", PyInt 5); ("Time Series (Daily)", sample_series) ] = false /\
  has_key "Note" [ ("Note", PyInt 5); ("Time Series (Daily)", sample_series) ] = true /\
  ~ mentions_frequency (PyInt 5) /\
  has_key "Information" [ ("Note", PyInt 5); ("Time Series (Daily)", sample_series) ] = false /\
  has_key "Time Series (Daily)"
    [ ("Note", PyInt 5); ("Time Series (Daily)", sample_series) ] = true /\
  disk numeric_note (output_path "SPY") = Written /\
  files (run numeric_note [("SPY", "S&P 500 (SPY)")] ∅) = ∅ /\
  symbols_processed (run numeric_note [("SPY", "S&P 500 (SPY)")] ∅) = 0 /\
  In (Print LUnknownError) (trace (run numeric_note [("SPY", "S&P 500 (SPY)")] ∅)).
Proof.
  repeat (split; [first [reflexivity | discriminate]|]).
  vm_compute. repeat first [left; reflexivity | right].
Qed.

(** C3, amended.  A decoded response (a dict, received with an accepted
    status) is classified in this order of priority.  With the key
    "Error Message" the symbol is skipped.  Else with a "Note" whose value
    mentions the API call frequency it is skipped; with a "Note" on which
    that test raises (a number, a boolean, null) it is skipped as an unknown
    error.  Else with the key "Information" it is skipped.  Else with the
    key "Time Series (Daily)" the value under that key is written to the
    symbol's file: the files become what the disk makes of that write, and
    when the write succeeds the file holds the value, the success line is
    printed and the symbol is counted.  Else the symbol is skipped as
    missing the expected key.  A skipped symbol changes neither the files
    nor the counter; its iteration prints the message of its case and ends
    in [continue], or, when the console cannot print the value in the
    message, prints the unknown error and goes on to the wait. *)
Theorem response_classified_in_priority_order E total symbol description st r items :
  http E symbol = GetResponse r ->
  accepted r ->
  body r = JsonValue (PyDict items) ->
  let begun := log st (header st total symbol description) in
  let result := loop_body E total (symbol, description) st in
  let reported lines := result = (Continue, log begun (map Print lines)) in
  let unknown lines :=
    result = pause total (log begun (map Print (lines ++ [LUnknownError]))) in
  (has_key "Error Message" items = true ->
     exists message, assoc "Error Message" items = Some message /\
       skipped st result /\
       (printable E message = true -> reported [LApiError message]) /\
       (printable E message = false -> unknown [])) /\
  (has_key "Error Message" items = false ->
   forall note, assoc "Note" items = Some note ->
     (mentions_frequency note ->
        skipped st result /\
        (printable E note = true -> reported [LRateLimit; LNote note]) /\
        (printable E note = false -> unknown [LRateLimit])) /\
     ((forall b, py_in "API call frequency" note <> Val b) ->
        skipped st result /\ unknown [])) /\
  (has_key "Error Message" items = false ->
   no_rate_limit items ->
   has_key "Information" items = true ->
     exists information, assoc "Information" items = Some information /\
       skipped st result /\
       (printable E information = true -> reported [LInformation information]) /\
       (printable E information = false -> unknown [])) /\
  (has_key "Error Message" items = false ->
   no_rate_limit items ->
   has_key "Information" items = false ->
   has_key "Time Series (Daily)" items = true ->
     exists ts, assoc "Time Series (Daily)" items = Some ts /\
       files (snd result) = disk_effect E symbol ts (files st) /\
       (disk E (output_path symbol) = Written ->
        result = pause total (saved st total symbol description ts))) /\
  (has_key "Error Message" items = false ->
   no_rate_limit items ->
   has_key "Information" items = false ->
   has_key "Time Series (Daily)" items = false ->
     skipped st result /\ reported [LMissingKey]).
Proof.
  intros Hget Hok Hbody begun result reported unknown.
  pose proof (extract_dict E items begun) as Hex. cbv zeta in Hex.
  assert (Hrep : forall lines,
            extract_time_series E (PyDict items) begun =
              (Continue, log begun (map Print lines)) ->
            skipped st result /\ reported lines).
  { intros lines Hlines. subst result reported. cbv beta.
    rewrite (loop_body_skips E total symbol description st r _ _ Hget Hok Hbody Hlines).
    split; [apply skipped_reported|reflexivity]. }
  assert (Hunk : forall e st1 lines,
            extract_time_series E (PyDict items) begun = (Raise e, st1) ->
            e = TypeError \/ e = KeyError \/ e = OtherError ->
            log st1 [Print LUnknownError] =
              log begun (map Print (lines ++ [LUnknownError])) ->
            skipped st result /\ unknown lines).
  { intros e st1 lines Hraise He Hst1. subst result unknown. cbv beta.
    rewrite (loop_body_unknown E total symbol description st r _ _ _ Hget Hok Hbody
               Hraise He), Hst1.
    split; [apply skipped_unknown|reflexivity]. }
  split; [|split; [|split; [|split]]].
  - intros [message Hm]%has_key_true. exists message. split; [exact Hm|].
    rewrite Hm in Hex.
    destruct (printable E message).
    + destruct (Hrep [LApiError message] Hex) as [Hskip Hline].
      split; [exact Hskip|]. split; [intros _; exact Hline|discriminate].
    + destruct (Hunk _ _ [] Hex) as [Hskip Hline]; [auto|reflexivity|].
      split; [exact Hskip|]. split; [discriminate|intros _; exact Hline].
  - intros Herr%has_key_false note Hnote. rewrite Herr, Hnote in Hex. split.
    + intros Hfreq. unfold mentions_frequency in Hfreq. rewrite Hfreq in Hex.
      destruct (printable E note).
      * destruct (Hrep [LRateLimit; LNote note] Hex) as [Hskip Hline].
        split; [exact Hskip|]. split; [intros _; exact Hline|discriminate].
      * destruct (Hunk _ _ [LRateLimit] Hex) as [Hskip Hline];
          [auto|apply log_log|].
        split; [exact Hskip|]. split; [discriminate|intros _; exact Hline].
    + intros Hraise.
      assert (Hex' : extract_time_series E (PyDict items) begun = (Raise TypeError, begun)).
      { destruct (py_in "API call frequency" note) as [b| | |e]; auto.
        destruct (Hraise b eq_refl). }
      apply (Hunk _ _ [] Hex'); [auto|reflexivity].
  - intros Herr%has_key_false Hnote [information Hi]%has_key_true.
    exists information. split; [exact Hi|].
    rewrite Herr, (no_rate_limit_rest items _ _ _ Hnote), Hi in Hex.
    destruct (printable E information).
    + destruct (Hrep [LInformation information] Hex) as [Hskip Hline].
      split; [exact Hskip|]. split; [intros _; exact Hline|discriminate].
    + destruct (Hunk _ _ [] Hex) as [Hskip Hline]; [auto|reflexivity|].
      split; [exact Hskip|]. split; [discriminate|intros _; exact Hline].
  - intros Herr%has_key_false Hnote Hinfo%has_key_false [ts Hts]%has_key_true.
    exists ts. split; [exact Hts|].
    rewrite Herr, (no_rate_limit_rest items _ _ _ Hnote), Hinfo, Hts in Hex.
    subst result. cbv beta.
    rewrite (loop_body_saves E total symbol description st r _ _ _ Hget Hok Hbody Hex).
    split; [rewrite after_save_files; reflexivity|].
    intros Hdisk. unfold try_except, bind. rewrite save_cases, Hdisk. simpl.
    unfold saved, header. norm_trace. reflexivity.
  - intros Herr%has_key_false Hnote Hinfo%has_key_false Hts%has_key_false.
    rewrite Herr, (no_rate_limit_rest items _ _ _ Hnote), Hinfo, Hts in Hex.
    exact (Hrep [LMissingKey] Hex).
Qed.

Lemma response_classified_in_priority_order_witness :
  accepted (answer 200 sample_envelope) /\
  loop_body all_refused 5 ("SPY", "S&P 500 (SPY)") (initial ∅) =
    (Continue,
     log (initial ∅)
       [ Print (LHeader 1 5 "SPY" "S&P 500 (SPY)");
         HttpGet BASE_URL (request_params "SPY");
         Print (LApiError (PyStr "Invalid API call.")) ]) /\
  loop_body refused_unprintably 5 ("SPY", "S&P 500 (SPY)") (initial ∅) =
    (Val tt,
     log (initial ∅)
       [ Print (LHeader 1 5 "SPY" "S&P 500 (SPY)");
         HttpGet BASE_URL (request_params "SPY");
         Print LUnknownError;
         Print (LWaiting 15); Sleep 15 ]) /\
  skipped (initial ∅) (loop_body numeric_note 5 ("SPY", "S&P 500 (SPY)") (initial ∅)) /\
  files (snd (loop_body all_served 5 ("SPY", "S&P 500 (SPY)") (initial ∅)))
    !! "data/stock/SPY.json" = Some (Dumped sample_series) /\
  symbols_processed (snd (loop_body all_served 5 ("SPY", "S&P 500 (SPY)") (initial ∅))) = 1.
Proof.
  assert (Hok : forall data, accepted (answer 200 data)) by (intros data; left; reflexivity).
  split; [apply Hok|].
  split.
  { destruct (response_classified_in_priority_order all_refused 5 "SPY" "S&P 500 (SPY)"
                (initial ∅) _ _ eq_refl (Hok _) eq_refl) as [Hfirst _].
    destruct (Hfirst eq_refl) as (message & Hm & _ & Hline & _).
    injection Hm as <-. exact (Hline eq_refl). }
  split.
  { destruct (response_classified_in_priority_order refused_unprintably 5 "SPY"
                "S&P 500 (SPY)" (initial ∅) _ _ eq_refl (Hok _) eq_refl) as [Hfirst _].
    destruct (Hfirst eq_refl) as (message & Hm & _ & _ & Hline).
    rewrite (Hline eq_refl). reflexivity. }
  split.
  { destruct (response_classified_in_priority_order numeric_note 5 "SPY" "S&P 500 (SPY)"
                (initial ∅) _ _ eq_refl (Hok _) eq_refl) as (_ & Hnote & _).
    destruct (Hnote eq_refl (PyInt 5) eq_refl) as [_ Hraise].
    exact (proj1 (Hraise ltac:(discriminate))). }
  destruct (response_classified_in_priority_order all_served 5 "SPY" "S&P 500 (SPY)"
              (initial ∅) _ _ eq_refl (Hok _) eq_refl) as (_ & _ & _ & Hseries & _).
  destruct (Hseries eq_refl (or_introl eq_refl) eq_refl eq_refl) as (ts & Hts & _ & Hsaved).
  injection Hts as <-. rewrite (Hsaved eq_refl), pause_cases.
  split; [apply lookup_insert_eq|reflexivity].
Defined.
